(** * Admin dashboard: authentication context, route guard, navigation,
      add-expense form and dashboard statistics

    A shallow embedding of the client-side logic of the finance dashboard:

    - [src/contexts/auth-context.tsx]   (module [Auth])
    - the sidebar component             (module [Sidebar])
    - [src/components/protected-route.tsx] (module [Guard])
    - the two add-expense pages         (modules [AddExpense], [AddExpenseLegacy])
    - the dashboard page                (module [Dashboard])
    - the landing, login, add-income and bills pages
      (modules [HomePage], [LoginPage], [AddIncome], [Bills])

    React state is modelled by explicit state passing: every handler is a
    function from the world before the handler to the world after it together
    with the way the handler ended (returned or threw).  The remote service
    is not part of the repository; its answers are inputs of the model. *)

From Stdlib Require Import ZArith QArith String List Bool Lia.
From stdpp Require Import gmap strings list sorting.

Local Open Scope Z_scope.
Local Open Scope string_scope.

(** ** JavaScript values and errors *)

(** The JavaScript values that can sit in a row returned by the remote
    service.  [JUndefined] never sits in a row: a missing key is a failed
    lookup in the map. *)
Inductive JsVal : Type :=
  | JNull
  | JBool (b : bool)
  | JNum (n : Z)
  | JStr (s : string).

#[global] Instance JsVal_eq_dec : EqDecision JsVal.
Proof. solve_decision. Defined.

(** [v === true] *)
Definition strict_eq_true (v : option JsVal) : bool :=
  match v with
  | Some (JBool true) => true
  | _ => false
  end.

(** [!o] for a value that is an object or null. *)
Definition absent {A} (o : option A) : bool :=
  match o with
  | None => true
  | Some _ => false
  end.

(** [!s] for a string. *)
Definition empty_string (s : string) : bool :=
  match s with
  | "" => true
  | _ => false
  end.

(** An [Error] object, or the error object of the remote service: only its
    message is observed by the code. *)
Record JsError : Type := Error { message : string }.

#[global] Instance JsError_eq_dec : EqDecision JsError.
Proof. solve_decision. Defined.

(** How a call ends. *)
Inductive Outcome (A : Type) : Type :=
  | Returned (a : A)
  | Threw (e : JsError).
Arguments Returned {A} a.
Arguments Threw {A} e.

(** ** The authentication context *)

Module Auth.

(** [User] of the remote service's client library, with the fields that
    [createMockUser] fills.  [created_at] holds the instant (epoch
    milliseconds) whose ISO rendering the source stores. *)
Record User : Type := mkUser {
  id : string;
  email : option string;
  aud : string;
  role : string;
  created_at : Z;
  app_metadata : gmap string JsVal;
  user_metadata : gmap string JsVal
}.

Record Session : Type := mkSession {
  access_token : string;
  refresh_token : string;
  expires_in : Z;
  expires_at : Q;
  token_type : string;
  session_user : User
}.

(** [UserPrivileges]: the interface declares five booleans, but the value
    is a row of the remote table cast to that interface, so it is kept as
    the object it is at run time: a finite map from key to value. *)
Abbreviation UserPrivileges := (gmap string JsVal).

(** The record used at every place where the source writes the five keys
    with [true]. *)
Definition fullPrivileges : UserPrivileges :=
  <["can_add_expense" := JBool true]>
  (<["can_add_income" := JBool true]>
  (<["can_view_reports" := JBool true]>
  (<["can_upload_bills" := JBool true]>
  (<["can_download_reports" := JBool true]> ∅)))).

(** [const TEST_MODE = true] *)
Definition TEST_MODE : bool := true.

(** [TEST_USER] *)
Definition TEST_USER_email : string := "test@example.com".
Definition TEST_USER_password : string := "password123".

(** What a string of local storage is, as far as [JSON.parse] and the
    destructuring [const { user, session } = ...] can tell. *)
Inductive StoredText : Type :=
  | NotJson (raw : string)
      (* JSON.parse throws; [raw] may be the empty string *)
  | JsonNullText
      (* the text null: parsing succeeds, destructuring throws *)
  | JsonRecord (u : option User) (s : option Session).
      (* a value whose [user] and [session] members are these
         ([None]: member missing or null) *)

(** [JSON.stringify({ user: mockUser, session: mockSession })] *)
Definition JSON_stringify (u : User) (s : Session) : StoredText :=
  JsonRecord (Some u) (Some s).

(** [if (testAuth)] on an item read from storage: only the empty string is
    falsy. *)
Definition truthy (t : StoredText) : bool :=
  match t with
  | NotJson raw => negb (empty_string raw)
  | _ => true
  end.

(** The result of [await supabase.from(..).select(..).eq(..).single()]. *)
Record QueryResult : Type := mkQueryResult {
  data : option UserPrivileges;
  error : option JsError
}.

(** The ways the privilege lookup can fail.  With [.single()] the client
    library reports a missing row as a result whose [error] member is set
    (no rows for a request of exactly one), not as a null [data] without
    error. *)
Inductive LookupFailure : Type :=
  | RecordAbsent
  | QueryFailed (e : JsError)
  | ExceptionThrown (e : JsError).

Definition failure_answer (f : LookupFailure) : Outcome QueryResult :=
  match f with
  | RecordAbsent =>
      Returned {| data := None;
                  error := Some (Error "JSON object requested, multiple (or no) rows returned") |}
  | QueryFailed e => Returned {| data := None; error := Some e |}
  | ExceptionThrown e => Threw e
  end.

(** The remote service and the clock, as seen from the client. *)
Record Env : Type := mkEnv {
  (* the value of the n-th reading of the clock, epoch milliseconds *)
  clock : nat → Z;
  (* the privilege query for a user id: a thrown exception or a result *)
  privilege_query : string → Outcome QueryResult;
  (* the [error] member of the answers of the auth endpoints *)
  auth_signInWithPassword : string → string → option JsError;
  auth_signUp : string → string → option JsError;
  auth_signOut : option JsError;
  (* the exception that [localStorage.setItem] throws for a write of this
     value under this key into this storage (the quota is exceeded), if
     any *)
  storage_setItem : gmap string StoredText → string → StoredText → option JsError
}.

(** The four [useState] cells of [AuthProvider]. *)
Record AuthState : Type := mkAuthState {
  user : option User;
  session : option Session;
  privileges : option UserPrivileges;
  loading : bool
}.

(** Everything a handler of the provider can read or change. *)
Record World : Type := mkWorld {
  auth : AuthState;
  localStorage : gmap string StoredText;
  console : list string;
  (* number of clock readings so far *)
  ticks : nat;
  (* user ids of the privilege lookups that were started and not awaited *)
  in_flight : list string
}.

(** [useState] initial values; storage is whatever the browser holds. *)
Definition initial_auth : AuthState :=
  {| user := None; session := None; privileges := None; loading := true |}.

Definition initial_world (stored : gmap string StoredText) : World :=
  {| auth := initial_auth; localStorage := stored; console := [];
     ticks := 0%nat; in_flight := [] |}.

(** *** The effect monad of the handlers *)

Definition Eff (A : Type) : Type := World → World * Outcome A.

#[global] Instance Eff_ret : MRet Eff := λ A a w, (w, Returned a).

#[global] Instance Eff_bind : MBind Eff := λ A B k m w,
  match m w with
  | (w', Returned a) => k a w'
  | (w', Threw e) => (w', Threw e)
  end.

Definition throw {A} (e : JsError) : Eff A := λ w, (w, Threw e).

(** [try { body } catch (e) { handler e }] *)
Definition try_catch {A} (body : Eff A) (handler : JsError → Eff A) : Eff A :=
  λ w, match body w with
       | (w', Threw e) => handler e w'
       | r => r
       end.

Definition modify (f : World → World) : Eff unit := λ w, (f w, Returned tt).

Definition set_auth (f : AuthState → AuthState) : Eff unit :=
  modify (λ w, {| auth := f (auth w); localStorage := localStorage w;
                  console := console w; ticks := ticks w;
                  in_flight := in_flight w |}).

Definition setUser (u : option User) : Eff unit :=
  set_auth (λ a, {| user := u; session := session a;
                    privileges := privileges a; loading := loading a |}).
Definition setSession (s : option Session) : Eff unit :=
  set_auth (λ a, {| user := user a; session := s;
                    privileges := privileges a; loading := loading a |}).
Definition setPrivileges (p : option UserPrivileges) : Eff unit :=
  set_auth (λ a, {| user := user a; session := session a;
                    privileges := p; loading := loading a |}).
Definition setLoading (b : bool) : Eff unit :=
  set_auth (λ a, {| user := user a; session := session a;
                    privileges := privileges a; loading := b |}).

Definition set_storage (f : gmap string StoredText → gmap string StoredText)
  : Eff unit :=
  modify (λ w, {| auth := auth w; localStorage := f (localStorage w);
                  console := console w; ticks := ticks w;
                  in_flight := in_flight w |}).

Definition localStorage_getItem (k : string) : Eff (option StoredText) :=
  λ w, (w, Returned (localStorage w !! k)).
(** [localStorage.setItem]: the write, or the exception of a storage that
    refuses it; the storage is then left as it was. *)
Definition localStorage_setItem (env : Env) (k : string) (v : StoredText)
  : Eff unit :=
  λ w, match storage_setItem env (localStorage w) k v with
       | Some e => (w, Threw e)
       | None => set_storage (insert k v) w
       end.
Definition localStorage_removeItem (k : string) : Eff unit :=
  set_storage (delete k).

Definition console_error (msg : string) : Eff unit :=
  modify (λ w, {| auth := auth w; localStorage := localStorage w;
                  console := console w ++ [msg]; ticks := ticks w;
                  in_flight := in_flight w |}).

(** A call of an [async] function without [await]: the call is recorded
    and its body runs when the answer arrives ([lookup_done] below). *)
Definition start_lookup (userId : string) : Eff unit :=
  modify (λ w, {| auth := auth w; localStorage := localStorage w;
                  console := console w; ticks := ticks w;
                  in_flight := in_flight w ++ [userId] |}).

Section Handlers.

Variable env : Env.

(** [Date.now()] and [new Date()]: the next reading of the clock. *)
Definition read_clock : Eff Z :=
  λ w, ({| auth := auth w; localStorage := localStorage w;
            console := console w; ticks := S (ticks w);
            in_flight := in_flight w |},
        Returned (clock env (ticks w))).

(** [createMockUser] *)
Definition createMockUser : Eff User :=
  now ← read_clock;
  mret {| id := "test-user-id-12345";
          email := Some TEST_USER_email;
          aud := "authenticated";
          role := "authenticated";
          created_at := now;
          app_metadata := ∅;
          user_metadata := ∅ |}.

(** [createMockSession] *)
Definition createMockSession : Eff Session :=
  now ← read_clock;
  u ← createMockUser;
  mret {| access_token := "mock-access-token";
          refresh_token := "mock-refresh-token";
          expires_in := 3600;
          expires_at := Qplus (Qdiv (inject_Z now) (inject_Z 1000)) (inject_Z 3600);
          token_type := "bearer";
          session_user := u |}.

(** The awaited query of [fetchPrivileges]. *)
Definition query_user_privileges (userId : string) : Eff QueryResult :=
  λ w, (w, privilege_query env userId).

(** [fetchPrivileges] *)
Definition fetchPrivileges (userId : string) : Eff unit :=
  try_catch
    (r ← query_user_privileges userId;
     match error r with
     | Some _ =>
         console_error "Error fetching privileges:";;
         setPrivileges (Some fullPrivileges)
     | None => setPrivileges (data r)
     end)
    (λ _, console_error "Error in fetchPrivileges:";;
          setPrivileges None).

(** The body of the mount effect when [TEST_MODE] holds. *)
Definition init_test_mode : Eff unit :=
  testAuth ← localStorage_getItem "test_auth";
  match testAuth with
  | Some t =>
      if truthy t then
        try_catch
          (match t with
           | NotJson _ => throw (Error "SyntaxError")
           | JsonNullText => throw (Error "TypeError")
           | JsonRecord u s =>
               setUser u;;
               setSession s;;
               setPrivileges (Some fullPrivileges)
           end)
          (λ _, console_error "Error loading test auth:";;
                localStorage_removeItem "test_auth")
      else mret tt
  | None => mret tt
  end;;
  setLoading false.

(** The callback given to [supabase.auth.getSession().then]. *)
Definition on_getSession (s : option Session) : Eff unit :=
  setSession s;;
  setUser (session_user <$> s);;
  match s with
  | Some s' => start_lookup (id (session_user s'))
  | None => mret tt
  end;;
  setLoading false.

(** The callback given to [supabase.auth.onAuthStateChange]. *)
Definition on_authStateChange (s : option Session) : Eff unit :=
  setSession s;;
  setUser (session_user <$> s);;
  match s with
  | Some s' => start_lookup (id (session_user s'))
  | None => setPrivileges None
  end;;
  setLoading false.

(** The answer of the oldest privilege lookup that was not awaited
    arrives: the rest of [fetchPrivileges] runs. *)
Definition lookup_done : Eff unit :=
  λ w, match in_flight w with
       | [] => (w, Returned tt)
       | userId :: rest =>
           fetchPrivileges userId
             {| auth := auth w; localStorage := localStorage w;
                console := console w; ticks := ticks w;
                in_flight := rest |}
       end.

Variable test_mode : bool.

(** The mount effect of [AuthProvider].  In delegated mode it only issues
    [getSession] and subscribes; the state changes when the callbacks run. *)
Definition init : Eff unit :=
  if test_mode then init_test_mode else mret tt.

(** [signIn] *)
Definition signIn (email password : string) : Eff unit :=
  if test_mode then
    if String.eqb email TEST_USER_email && String.eqb password TEST_USER_password
    then
      mockUser ← createMockUser;
      mockSession ← createMockSession;
      setUser (Some mockUser);;
      setSession (Some mockSession);;
      setPrivileges (Some fullPrivileges);;
      localStorage_setItem env "test_auth" (JSON_stringify mockUser mockSession)
    else
      throw (Error "Invalid test credentials. Use test@example.com / password123")
  else
    match auth_signInWithPassword env email password with
    | Some e => throw e
    | None => mret tt
    end.

(** [signUp] *)
Definition signUp (email password : string) : Eff unit :=
  if test_mode then
    mockUser ← createMockUser;
    mockSession ← createMockSession;
    setUser (Some mockUser);;
    setSession (Some mockSession);;
    setPrivileges (Some fullPrivileges);;
    localStorage_setItem env "test_auth" (JSON_stringify mockUser mockSession)
  else
    match auth_signUp env email password with
    | Some e => throw e
    | None => mret tt
    end.

(** [signOut] *)
Definition signOut : Eff unit :=
  if test_mode then
    localStorage_removeItem "test_auth";;
    setUser None;;
    setSession None;;
    setPrivileges None
  else
    match auth_signOut env with
    | Some e => throw e
    | None => mret tt
    end.

(** [refreshPrivileges] *)
Definition refreshPrivileges : Eff unit :=
  u ← (λ w, (w, Returned (user (auth w))));
  match u with
  | Some u' => fetchPrivileges (id u')
  | None => mret tt
  end.

End Handlers.

End Auth.

(** ** The provider as a transition system *)

Module Provider.
Import Auth.

(** What can happen to a mounted provider: a consumer calls one of the four
    operations, the promise of [getSession] resolves, the client library
    reports an auth-state change, or the answer of a privilege lookup that
    was started without [await] arrives. *)
Inductive Event : Type :=
  | CallSignIn (email password : string)
  | CallSignUp (email password : string)
  | CallSignOut
  | CallRefreshPrivileges
  | GetSessionResolved (s : option Session)
  | AuthStateChanged (s : option Session)
  | LookupAnswered.

(** The handler of an event.  In test mode the mount effect returns before
    it calls [getSession] or subscribes, so the two callbacks never run. *)
Definition handler (env : Env) (test_mode : bool) (ev : Event) : Eff unit :=
  match ev with
  | CallSignIn e p => signIn env test_mode e p
  | CallSignUp e p => signUp env test_mode e p
  | CallSignOut => signOut env test_mode
  | CallRefreshPrivileges => refreshPrivileges env
  | GetSessionResolved s => if test_mode then mret tt else on_getSession s
  | AuthStateChanged s => if test_mode then mret tt else on_authStateChange s
  | LookupAnswered => lookup_done env
  end.

(** The world that consumers see after the handler; state written before a
    throw stays written. *)
Definition step (env : Env) (test_mode : bool) (w : World) (ev : Event) : World :=
  fst (handler env test_mode ev w).

(** The world after the mount effect. *)
Definition mounted (env : Env) (test_mode : bool)
    (stored : gmap string StoredText) : World :=
  fst (init test_mode (initial_world stored)).

Definition run (env : Env) (test_mode : bool) (evs : list Event) (w : World)
  : World :=
  fold_left (step env test_mode) evs w.

(** The states the navigation and the guard must never see, according to
    the specification: an identity, loading finished, no privilege set. *)
Definition identity_without_privileges (a : AuthState) : bool :=
  match user a, loading a, privileges a with
  | Some _, false, None => true
  | _, _, _ => false
  end.

(** What holds of the loading flag in every state of a mounted provider:
    in test mode loading is over; in delegated mode a user is only ever
    present once loading is over. *)
Definition loading_settled (test_mode : bool) (a : AuthState) : Prop :=
  loading a = false ∨ (test_mode = false ∧ user a = None).

End Provider.

(** ** The sidebar navigation *)

Module Sidebar.
Import Auth.

(** The union type of [NavItem.privilegeKey]. *)
Inductive PrivilegeKey : Type :=
  | can_add_expense
  | can_add_income
  | can_view_reports
  | can_upload_bills
  | can_download_reports.

Definition key_string (k : PrivilegeKey) : string :=
  match k with
  | can_add_expense => "can_add_expense"
  | can_add_income => "can_add_income"
  | can_view_reports => "can_view_reports"
  | can_upload_bills => "can_upload_bills"
  | can_download_reports => "can_download_reports"
  end.

(** [NavItem]; the icon is markup and is left out. *)
Record NavItem : Type := mkNavItem {
  name : string;
  href : string;
  privilegeKey : option PrivilegeKey
}.

Definition navItems : list NavItem :=
  [ {| name := "Dashboard"; href := "/dashboard"; privilegeKey := None |};
    {| name := "Add Expense"; href := "/dashboard/expenses/add";
       privilegeKey := Some can_add_expense |};
    {| name := "Add Income"; href := "/dashboard/income/add";
       privilegeKey := Some can_add_income |};
    {| name := "Reports & Analytics"; href := "/dashboard/reports";
       privilegeKey := Some can_view_reports |};
    {| name := "Upload Bills"; href := "/dashboard/bills";
       privilegeKey := Some can_upload_bills |};
    {| name := "Download Reports"; href := "/dashboard/downloads";
       privilegeKey := Some can_download_reports |} ].

(** [!privilegeKey] for an optional string: undefined or empty. *)
Definition no_key (privilegeKey : option string) : bool :=
  match privilegeKey with
  | None => true
  | Some k => empty_string k
  end.

(** [hasPrivilege], with the [privileges] of the context as an argument. *)
Definition hasPrivilege (privileges : option UserPrivileges)
    (privilegeKey : option string) : bool :=
  if no_key privilegeKey || absent privileges then true
  else strict_eq_true (p ← privileges; k ← privilegeKey; p !! k).

(** A rendered [Link]. *)
Record Link : Type := mkLink {
  link_href : string;
  link_name : string;
  isActive : bool
}.

(** The callback of [navItems.map]: [None] is the [null] it returns for a
    hidden item. *)
Definition render_item (pathname : string) (privileges : option UserPrivileges)
    (item : NavItem) : option Link :=
  if negb (hasPrivilege privileges (key_string <$> privilegeKey item)) then None
  else Some {| link_href := href item; link_name := name item;
               isActive := String.eqb pathname (href item) |}.

(** The links of the [nav] element, in order. *)
Definition nav (pathname : string) (privileges : option UserPrivileges)
  : list Link :=
  omap (render_item pathname privileges) navItems.

Definition visible (privileges : option UserPrivileges) (item : NavItem) : bool :=
  hasPrivilege privileges (key_string <$> privilegeKey item).

End Sidebar.

(** ** The route guard *)

Module Guard.

(** What the context's [user] is at run time.  The provider starts with
    [null] and sets [null] again in [signOut] and for a missing session;
    it sets an object after a sign-in; and the mount effect of test mode
    sets whatever [JSON.parse] gave for the [user] field of the stored
    item, which is [undefined] when the stored record has no such
    field. *)
Inductive Identity (U : Type) : Type :=
  | Undefined
  | Null
  | Object (u : U).
Arguments Undefined {U}.
Arguments Null {U}.
Arguments Object {U} u.

Section Guard.

(** The identity type, and [Object.is] on two identity objects: the
    dependency array of an effect is compared by reference.  Nothing is
    assumed about it. *)
Context {U : Type} (same : U → U → bool).

(** What one render of [ProtectedRoute] reads: the context's [user] and
    [loading], and the object returned by [useRouter] (by its identity). *)
Record Props : Type := mkProps {
  user : Identity U;
  loading : bool;
  router : nat
}.

Inductive View : Type :=
  | Placeholder   (* the spinner *)
  | Nothing       (* null *)
  | Children.     (* the protected content *)

(** [!user] *)
Definition falsy (i : Identity U) : bool :=
  match i with
  | Undefined | Null => true
  | Object _ => false
  end.

(** The value returned by the component function. *)
Definition render (p : Props) : View :=
  if loading p then Placeholder
  else if falsy (user p) then Nothing
  else Children.

(** The body of the effect: the targets it pushes to the router. *)
Definition effect (p : Props) : list string :=
  if negb (loading p) && falsy (user p) then ["/login"] else [].

(** [Object.is] on two values of [user]: [undefined] and [null] are
    different values. *)
Definition same_value (i j : Identity U) : bool :=
  match i, j with
  | Undefined, Undefined => true
  | Null, Null => true
  | Object a, Object b => same a b
  | _, _ => false
  end.

(** Comparison of the dependency arrays [user, loading, router] of two
    renders. *)
Definition same_deps (p q : Props) : bool :=
  same_value (user p) (user q)
  && Bool.eqb (loading p) (loading q)
  && Nat.eqb (router p) (router q).

(** One render and commit.  [prev] holds the props of the previous render
    of this instance, [None] at mount.  The effect runs at mount and
    whenever a dependency changed. *)
Definition commit (prev : option Props) (p : Props) : View * list string :=
  (render p,
   match prev with
   | None => effect p
   | Some q => if same_deps q p then [] else effect p
   end).








End Guard.

End Guard.

(** ** The add-expense pages *)

(** What a submit handler does besides changing the page state, in order. *)
Inductive Action : Type :=
  | PreventDefault
  | ConsoleError (msg : string)
  (* a row sent to the remote service: table and members, the amount as
     the text given to [parseFloat] *)
  | Insert (table : string) (row : list (string * string))
  (* [setTimeout(() => router.push(target), ms)] *)
  | PushAfter (ms : Z) (target : string).

Definition is_network_call (a : Action) : bool :=
  match a with
  | Insert _ _ => true
  | _ => false
  end.

(** The page that writes to the [Transaction] table. *)
Module AddExpense.

Record FormData : Type := mkFormData {
  amount : string;
  typeId : string;
  description : string;
  date : string
}.

(** The [useState] cells that the submit handler reads or writes. *)
Record Page : Type := mkPage {
  formData : FormData;
  personId : option string;
  loading : bool;
  success : bool;
  error : string
}.

Definition setError (msg : string) (p : Page) : Page :=
  {| formData := formData p; personId := personId p; loading := loading p;
     success := success p; error := msg |}.
Definition setLoading (b : bool) (p : Page) : Page :=
  {| formData := formData p; personId := personId p; loading := b;
     success := success p; error := error p |}.
Definition setSuccess (b : bool) (p : Page) : Page :=
  {| formData := formData p; personId := personId p; loading := loading p;
     success := b; error := error p |}.

(** [!personId] for [string | null]. *)
Definition no_person (personId : option string) : bool :=
  match personId with
  | None => true
  | Some s => empty_string s
  end.

(** [err.message || 'Failed to add expense'] *)
Definition message_or (e : JsError) (fallback : string) : string :=
  if empty_string (message e) then fallback else message e.

(** [!formData.amount || !formData.typeId || !formData.date] *)
Definition required_missing (f : FormData) : bool :=
  empty_string (amount f) || empty_string (typeId f) || empty_string (date f).

(** [handleSubmit].  [user] is the context's user; [answer] is how the
    awaited insert ends: it throws, or it returns with its [error] member. *)
Definition handleSubmit (user : option Auth.User)
    (answer : Outcome (option JsError)) (p : Page) : Page * list Action :=
  if absent user || no_person (personId p) then
    (setError "You must be logged in to add expenses" p, [PreventDefault])
  else if required_missing (formData p) then
    (setError "Please fill in all required fields" p, [PreventDefault])
  else
    let p1 := setError "" (setLoading true p) in
    let request :=
      Insert "Transaction"
        [("TransID", typeId (formData p));
         ("PersonID", default "" (personId p));
         ("Amount", amount (formData p));
         ("TransactionDate", date (formData p))] in
    let thrown :=
      match answer with
      | Threw e => Some e
      | Returned (Some insertError) => Some insertError
      | Returned None => None
      end in
    match thrown with
    | None =>
        (setLoading false (setSuccess true p1),
         [PreventDefault; request; PushAfter 2000 "/dashboard"])
    | Some err =>
        (setLoading false (setError (message_or err "Failed to add expense") p1),
         [PreventDefault; request; ConsoleError "Error adding expense:"])
    end.

End AddExpense.

(** The page that writes to the [expenses] table. *)
Module AddExpenseLegacy.

Record FormData : Type := mkFormData {
  amount : string;
  category : string;
  description : string;
  date : string
}.

Record Page : Type := mkPage {
  formData : FormData;
  loading : bool;
  success : bool;
  error : string
}.

Definition setError (msg : string) (p : Page) : Page :=
  {| formData := formData p; loading := loading p;
     success := success p; error := msg |}.
Definition setLoading (b : bool) (p : Page) : Page :=
  {| formData := formData p; loading := b;
     success := success p; error := error p |}.
Definition setSuccess (b : bool) (p : Page) : Page :=
  {| formData := formData p; loading := loading p;
     success := b; error := error p |}.

(** [!formData.amount || !formData.category || !formData.date] *)
Definition required_missing (f : FormData) : bool :=
  empty_string (amount f) || empty_string (category f) || empty_string (date f).

(** [handleSubmit] *)
Definition handleSubmit (user : option Auth.User)
    (answer : Outcome (option JsError)) (p : Page) : Page * list Action :=
  match user with
  | None =>
      (setError "You must be logged in to add expenses" p, [PreventDefault])
  | Some u =>
      if required_missing (formData p) then
        (setError "Please fill in all required fields" p, [PreventDefault])
      else
        let p1 := setError "" (setLoading true p) in
        let request :=
          Insert "expenses"
            [("user_id", Auth.id u);
             ("amount", amount (formData p));
             ("category", category (formData p));
             ("description", description (formData p));
             ("date", date (formData p))] in
        let thrown :=
          match answer with
          | Threw e => Some e
          | Returned (Some insertError) => Some insertError
          | Returned None => None
          end in
        match thrown with
        | None =>
            (setLoading false (setSuccess true p1),
             [PreventDefault; request; PushAfter 2000 "/dashboard"])
        | Some err =>
            (setLoading false
               (setError (AddExpense.message_or err "Failed to add expense") p1),
             [PreventDefault; request; ConsoleError "Error adding expense:"])
        end
  end.

End AddExpenseLegacy.

(** ** The dashboard page *)

Module Dashboard.

Section Dashboard.

(** The JavaScript numbers of the amounts with the three operations the
    page uses on them.  The statements below hold for every
    interpretation, so also for floating-point addition, which is not
    associative. *)
Context {num : Type} (zero : num) (add sub : num → num → num).

Record Category : Type := mkCategory {
  category_Name : string;
  category_Type : string     (* 'INCOME' or 'EXPENSE' *)
}.

Record TxType : Type := mkTxType {
  type_Name : string;
  type_Category : option Category
}.

(** A row of the select: the date is the instant (epoch milliseconds)
    that [new Date(t.TransactionDate)] denotes; the joined [Type] may be
    null. *)
Record Transaction : Type := mkTransaction {
  TransactionID : string;
  Amount : num;
  TransactionDate : Z;
  Type_ : option TxType
}.

(** A row of the remote [Transaction] table. *)
Record Row : Type := mkRow {
  PersonID : string;
  row : Transaction
}.

(** [t.Type?.Category?.Type] *)
Definition direction (t : Transaction) : option string :=
  ty ← Type_ t; c ← type_Category ty; Some (category_Type c).

(** [t.Type?.Category?.Type === d] *)
Definition has_direction (d : string) (t : Transaction) : bool :=
  match direction t with
  | Some s => String.eqb s d
  | None => false
  end.

(** [.order('TransactionDate', { ascending: false })]: [a] may come
    before [b]. *)
Definition newer_first (a b : Transaction) : Prop :=
  (TransactionDate b ≤ TransactionDate a)%Z.

#[global] Instance newer_first_dec a b : Decision (newer_first a b).
Proof. unfold newer_first. apply _. Defined.

(** The remote service answering the select that the page issues:
    [.eq('PersonID', pid).order(..descending..).limit(10)]. *)
Definition select_recent (table : list Row) (pid : string) : list Transaction :=
  take 10 (merge_sort newer_first
             (row <$> filter (λ r, PersonID r = pid) table)).

Record Stats : Type := mkStats {
  totalIncome : num;
  totalExpenses : num;
  netBalance : num;
  thisMonth : num
}.

Record Page : Type := mkPage {
  transactions : list Transaction;
  loading : bool;
  stats : Stats;
  console : list string
}.

(** The [useState] initial values. *)
Definition initial_page : Page :=
  {| transactions := []; loading := true;
     stats := {| totalIncome := zero; totalExpenses := zero;
                 netBalance := zero; thisMonth := zero |};
     console := [] |}.

(** [txns.filter(direction === d).reduce((sum, t) => sum + t.Amount, 0)] *)
Definition total (d : string) (txns : list Transaction) : num :=
  fold_left (λ sum t, add sum (Amount t))
            (List.filter (has_direction d) txns) zero.

(** The net of the transactions dated at or after [thisMonthStart]:
    [txns.filter(t => new Date(t.TransactionDate) >= thisMonthStart)]
    reduced with [+] for an income row and [-] for every other row. *)
Definition thisMonthNet (thisMonthStart : Z) (txns : list Transaction) : num :=
  fold_left
    (λ sum t, if has_direction "INCOME" t then add sum (Amount t)
              else sub sum (Amount t))
    (List.filter (λ t, (thisMonthStart <=? TransactionDate t)%Z) txns) zero.

(** The object given to [setStats]. *)
Definition compute_stats (thisMonthStart : Z) (txns : list Transaction) : Stats :=
  let income := total "INCOME" txns in
  let expenses := total "EXPENSE" txns in
  {| totalIncome := income;
     totalExpenses := expenses;
     netBalance := sub income expenses;
     thisMonth := thisMonthNet thisMonthStart txns |}.

(** The result of the awaited select. *)
Record QueryResult : Type := mkQueryResult {
  data : option (list Transaction);
  error : option JsError
}.

Definition finish (p : Page) : Page :=
  {| transactions := transactions p; loading := false; stats := stats p;
     console := console p |}.

Definition log_error (p : Page) : Page :=
  {| transactions := transactions p; loading := loading p; stats := stats p;
     console := console p ++ ["Error fetching transactions:"] |}.

(** [fetchTransactions].  [person] is how the lookup of the Person row
    ends (the id of the row, or null); [answer] is how the select for a
    person id ends; [thisMonthStart] is the instant of
    [new Date()] after [setDate(1)]: day 1 of the current month at the
    time of day of the call, not at midnight. *)
Definition fetchTransactions (person : Outcome (option string))
    (answer : string → Outcome QueryResult) (thisMonthStart : Z) (p : Page)
  : Page :=
  match person with
  | Threw _ => finish (log_error p)
  | Returned None => finish p
  | Returned (Some pid) =>
      match answer pid with
      | Threw _ => finish (log_error p)
      | Returned r =>
          match error r with
          | Some _ => finish (log_error p)
          | None =>
              let txns := default [] (data r) in
              finish {| transactions := txns; loading := loading p;
                        stats := compute_stats thisMonthStart txns;
                        console := console p |}
          end
      end
  end.

(** The remote service answering the select from its table, without a
    failure. *)
Definition answer_from (table : list Row) (pid : string) : Outcome QueryResult :=
  Returned {| data := Some (select_recent table pid); error := None |}.

End Dashboard.

End Dashboard.

(** ** Concrete inputs *)

Module Inputs.
Import Auth.

(** An environment in which every remote call fails; local storage
    accepts every write. *)
Definition offline_env : Env :=
  {| clock := λ n, 1700000000000 + Z.of_nat n;
     privilege_query := λ _, Threw (Error "Failed to fetch");
     auth_signInWithPassword := λ _ _, Some (Error "Failed to fetch");
     auth_signUp := λ _ _, Some (Error "Failed to fetch");
     auth_signOut := Some (Error "Failed to fetch");
     storage_setItem := λ _ _ _, None |}.

(** The same environment with a local storage whose quota is used up:
    every write is refused. *)
Definition full_storage_env : Env :=
  {| clock := λ n, 1700000000000 + Z.of_nat n;
     privilege_query := λ _, Threw (Error "Failed to fetch");
     auth_signInWithPassword := λ _ _, Some (Error "Failed to fetch");
     auth_signUp := λ _ _, Some (Error "Failed to fetch");
     auth_signOut := Some (Error "Failed to fetch");
     storage_setItem := λ _ _ _, Some (Error "QuotaExceededError") |}.

(** An identity and a session as the remote service issues them. *)
Definition remote_user : User :=
  {| id := "6f1c2a9e"; email := Some "ann@example.org";
     aud := "authenticated"; role := "authenticated";
     created_at := 1690000000000; app_metadata := ∅; user_metadata := ∅ |}.

Definition remote_session : Session :=
  {| access_token := "at"; refresh_token := "rt"; expires_in := 3600;
     expires_at := inject_Z 1700003600; token_type := "bearer";
     session_user := remote_user |}.

(** A world of the delegated mode in which that identity is signed in. *)
Definition signed_in_world : World :=
  {| auth := {| user := Some remote_user; session := Some remote_session;
                privileges := Some fullPrivileges; loading := false |};
     localStorage := ∅; console := []; ticks := 0%nat; in_flight := [] |}.

(** A world in which nobody is signed in and loading has finished. *)
Definition signed_out_world : World :=
  {| auth := {| user := None; session := None; privileges := None;
                loading := false |};
     localStorage := ∅; console := []; ticks := 0%nat; in_flight := [] |}.

(** The add-expense form with the amount left empty, type and date
    chosen, on a page whose Person row has not been resolved. *)
Definition amount_missing : AddExpense.FormData :=
  {| AddExpense.amount := ""; AddExpense.typeId := "7";
     AddExpense.description := ""; AddExpense.date := "2024-05-01" |}.

Definition page_without_person : AddExpense.Page :=
  {| AddExpense.formData := amount_missing; AddExpense.personId := None;
     AddExpense.loading := false; AddExpense.success := false;
     AddExpense.error := "" |}.

Definition page_with_person : AddExpense.Page :=
  {| AddExpense.formData := amount_missing;
     AddExpense.personId := Some "42";
     AddExpense.loading := false; AddExpense.success := false;
     AddExpense.error := "" |}.

Definition legacy_page : AddExpenseLegacy.Page :=
  {| AddExpenseLegacy.formData :=
       {| AddExpenseLegacy.amount := ""; AddExpenseLegacy.category := "Housing";
          AddExpenseLegacy.description := "rent";
          AddExpenseLegacy.date := "2024-05-01" |};
     AddExpenseLegacy.loading := false; AddExpenseLegacy.success := false;
     AddExpenseLegacy.error := "" |}.

(** Eleven salary payments of one unit each for person 42, on eleven
    consecutive days, with integer amounts. *)
Definition salary : Dashboard.TxType :=
  {| Dashboard.type_Name := "Salary";
     Dashboard.type_Category :=
       Some {| Dashboard.category_Name := "Work";
               Dashboard.category_Type := "INCOME" |} |}.

Definition eleven_incomes : list (Dashboard.Row (num:=Z)) :=
  (λ d : Z, {| Dashboard.PersonID := "42";
               Dashboard.row :=
                 {| Dashboard.TransactionID := "t";
                    Dashboard.Amount := 1;
                    Dashboard.TransactionDate := 86400000 * d;
                    Dashboard.Type_ := Some salary |} |})
  <$> [1; 2; 3; 4; 5; 6; 7; 8; 9; 10; 11].

End Inputs.

(** ** Further components *)

(** The sign-out button of the sidebar. *)
Module SidebarActions.
Import Auth.

(** [handleSignOut]: the value returned is the list of routes pushed to
    the router. *)
Definition handleSignOut (env : Env) (test_mode : bool) : Eff (list string) :=
  try_catch
    (signOut env test_mode;; mret ["/login"])
    (λ _, console_error "Sign out error:";; mret []).

End SidebarActions.

(** The landing page [src/app/page.tsx]. *)
Module HomePage.

(** The body of the effect of [HomePage]: the routes it pushes. *)
Definition effect {U : Type} (p : Guard.Props (U:=U)) : list string :=
  if negb (Guard.loading p) then
    if negb (Guard.falsy (Guard.user p)) then ["/dashboard"] else ["/login"]
  else [].

End HomePage.

(** The login page [src/app/(auth)/login/page.tsx]. *)
Module LoginPage.
Import Auth.

(** The [useState] cells of [LoginPage]. *)
Record Page : Type := mkPage {
  isLogin : bool;
  email : string;
  password : string;
  loading : bool;
  error : string
}.

Definition setError (msg : string) (p : Page) : Page :=
  {| isLogin := isLogin p; email := email p; password := password p;
     loading := loading p; error := msg |}.
Definition setLoading (b : bool) (p : Page) : Page :=
  {| isLogin := isLogin p; email := email p; password := password p;
     loading := b; error := error p |}.

(** The link under the form: [setIsLogin(!isLogin); setError('')]. *)
Definition toggleMode (p : Page) : Page :=
  {| isLogin := negb (isLogin p); email := email p; password := password p;
     loading := loading p; error := "" |}.

(** [handleSubmit]: the page after it, the provider's world after it, and
    the routes pushed. *)
Definition handleSubmit (env : Env) (test_mode : bool) (p : Page) (w : World)
  : Page * World * list string :=
  let p1 := setLoading true (setError "" p) in
  let call :=
    if isLogin p then signIn env test_mode (email p) (password p)
    else signUp env test_mode (email p) (password p) in
  match call w with
  | (w', Returned _) => (setLoading false p1, w', ["/dashboard"])
  | (w', Threw err) =>
      (setLoading false
         (setError (AddExpense.message_or err "An error occurred") p1),
       w', [])
  end.

End LoginPage.

(** The add-income page that writes to the [Transaction] table
    ([src/app/(dashboard)/dashboard/income/add/page.tsx], second part).
    Its form and state cells have the shape of the add-expense page's. *)
Module AddIncome.
Import AddExpense.

(** [handleSubmit] *)
Definition handleSubmit (user : option Auth.User)
    (answer : Outcome (option JsError)) (p : Page) : Page * list Action :=
  if absent user || no_person (personId p) then
    (setError "You must be logged in to add income" p, [PreventDefault])
  else if required_missing (formData p) then
    (setError "Please fill in all required fields" p, [PreventDefault])
  else
    let p1 := setError "" (setLoading true p) in
    let request :=
      Insert "Transaction"
        [("TransID", typeId (formData p));
         ("PersonID", default "" (personId p));
         ("Amount", amount (formData p));
         ("TransactionDate", date (formData p))] in
    let thrown :=
      match answer with
      | Threw e => Some e
      | Returned (Some insertError) => Some insertError
      | Returned None => None
      end in
    match thrown with
    | None =>
        (setLoading false (setSuccess true p1),
         [PreventDefault; request; PushAfter 2000 "/dashboard"])
    | Some err =>
        (setLoading false (setError (message_or err "Failed to add income") p1),
         [PreventDefault; request; ConsoleError "Error adding income:"])
    end.

End AddIncome.

(** Events and inputs used by the properties of the further components. *)
Module ProviderEvents.
Import Auth Provider.


(** A stored item from which the mount effect cannot take a user:
    [JSON.parse] or the destructuring throws, or the item is empty. *)
Definition unreadable (t : StoredText) : bool :=
  match t with
  | NotJson _ | JsonNullText => true
  | JsonRecord _ _ => false
  end.

(** The world after a test-mode sign-in with the designated pair: three
    readings of the clock go into the mock user, the session and the
    session's own copy of the user. *)
Definition mock_user (now : Z) : User :=
  {| id := "test-user-id-12345"; email := Some TEST_USER_email;
     aud := "authenticated"; role := "authenticated";
     created_at := now; app_metadata := ∅; user_metadata := ∅ |}.

Definition mock_session (now now' : Z) : Session :=
  {| access_token := "mock-access-token";
     refresh_token := "mock-refresh-token";
     expires_in := 3600;
     expires_at := Qplus (Qdiv (inject_Z now) (inject_Z 1000)) (inject_Z 3600);
     token_type := "bearer";
     session_user := mock_user now' |}.

Definition signed_in_user (env : Env) (w : World) : User :=
  mock_user (clock env (ticks w)).

Definition signed_in_session (env : Env) (w : World) : Session :=
  mock_session (clock env (S (ticks w))) (clock env (S (S (ticks w)))).

(** The item that the sign-in hands to [localStorage.setItem]. *)
Definition signed_in_item (env : Env) (w : World) : StoredText :=
  JsonRecord (Some (signed_in_user env w)) (Some (signed_in_session env w)).

(** The world after the three state cells are set, with the storage
    [st]. *)
Definition signed_in_with (env : Env) (w : World)
    (st : gmap string StoredText) : World :=
  {| auth := {| user := Some (signed_in_user env w);
                session := Some (signed_in_session env w);
                privileges := Some fullPrivileges;
                loading := loading (auth w) |};
     localStorage := st;
     console := console w;
     ticks := S (S (S (ticks w)));
     in_flight := in_flight w |}.

(** The world after a sign-in whose write was accepted. *)
Definition after_signIn (env : Env) (w : World) : World :=
  signed_in_with env w (<["test_auth" := signed_in_item env w]> (localStorage w)).

(** The world after a test-mode sign-out. *)
Definition after_signOut (w : World) : World :=
  {| auth := {| user := None; session := None; privileges := None;
                loading := loading (auth w) |};
     localStorage := delete "test_auth" (localStorage w);
     console := console w; ticks := ticks w; in_flight := in_flight w |}.

(** The privilege set and the console line that [fetchPrivileges] leaves
    for an answer of the lookup. *)
Definition looked_up (a : Outcome QueryResult) : option UserPrivileges :=
  match a with
  | Threw _ => None
  | Returned r =>
      match error r with
      | Some _ => Some fullPrivileges
      | None => data r
      end
  end.

Definition lookup_log (a : Outcome QueryResult) : list string :=
  match a with
  | Threw _ => ["Error in fetchPrivileges:"]
  | Returned r =>
      match error r with
      | Some _ => ["Error fetching privileges:"]
      | None => []
      end
  end.

(** The world after a callback of the client library that carries a
    session: [p] is the privilege set it leaves. *)
Definition with_session (s : Session) (w : World) : World :=
  {| auth := {| user := Some (session_user s); session := Some s;
                privileges := privileges (auth w); loading := false |};
     localStorage := localStorage w; console := console w; ticks := ticks w;
     in_flight := in_flight w ++ [id (session_user s)] |}.

(** A second identity of the remote service. *)
Definition other_user : User :=
  {| id := "b7d0e415"; email := Some "bob@example.org";
     aud := "authenticated"; role := "authenticated";
     created_at := 1695000000000; app_metadata := ∅; user_metadata := ∅ |}.

Definition other_session : Session :=
  {| access_token := "at2"; refresh_token := "rt2"; expires_in := 3600;
     expires_at := inject_Z 1700007200; token_type := "bearer";
     session_user := other_user |}.

End ProviderEvents.

(** Forms that differ in the description only. *)
Module Forms.

Definition with_description (d : string) (p : AddExpense.Page) : AddExpense.Page :=
  {| AddExpense.formData :=
       {| AddExpense.amount := AddExpense.amount (AddExpense.formData p);
          AddExpense.typeId := AddExpense.typeId (AddExpense.formData p);
          AddExpense.description := d;
          AddExpense.date := AddExpense.date (AddExpense.formData p) |};
     AddExpense.personId := AddExpense.personId p;
     AddExpense.loading := AddExpense.loading p;
     AddExpense.success := AddExpense.success p;
     AddExpense.error := AddExpense.error p |}.

Definition is_push (a : Action) : bool :=
  match a with
  | PushAfter _ _ => true
  | _ => false
  end.

End Forms.

(** [fetchOrCreatePerson] of the add-expense and add-income pages that
    write to the [Transaction] table, and the Person table it talks to. *)
Module PersonLookup.

Record PersonRow : Type := mkPersonRow {
  PersonID : string;
  Name : string
}.

(** The result of an awaited [.single()] on the Person table. *)
Record PersonResult : Type := mkPersonResult {
  data : option PersonRow;
  error : option JsError
}.

(** [user.email || 'Unknown User'] *)
Definition name_for (email : option string) : string :=
  match email with
  | Some e => if empty_string e then "Unknown User" else e
  | None => "Unknown User"
  end.

(** [fetchOrCreatePerson].  [lookup] is how the awaited select ends and
    [create] how the awaited insert ends, if it is issued; the result is
    the [personId] cell afterwards and what was done. *)
Definition fetchOrCreatePerson (user : option Auth.User)
    (lookup create : Outcome PersonResult) (personId : option string)
  : option string * list Action :=
  match user with
  | None => (personId, [])
  | Some u =>
      match lookup with
      | Threw _ => (personId, [ConsoleError "Error managing person:"])
      | Returned l =>
          if negb (absent (error l)) || absent (data l) then
            let request := Insert "Person" [("Name", name_for (Auth.email u))] in
            match create with
            | Threw _ =>
                (personId, [request; ConsoleError "Error managing person:"])
            | Returned c =>
                match error c with
                | Some _ =>
                    (personId, [request; ConsoleError "Error creating person:"])
                | None => (PersonID <$> data c, [request])
                end
            end
          else (PersonID <$> data l, [])
      end
  end.

(** *** The Person table *)

(** The rows of the table and the number of ids handed out so far. *)
Record Store : Type := mkStore {
  persons : list PersonRow;
  minted : nat
}.

#[global] Instance PersonRow_eq_dec : EqDecision PersonRow.
Proof. solve_decision. Defined.

(** [.single()]: exactly one row, or the error of the remote service for
    no row or several rows. *)
Definition single (rows : list PersonRow) : PersonResult :=
  match rows with
  | [r] => {| data := Some r; error := None |}
  | _ => {| data := None;
            error := Some (Error "JSON object requested, multiple (or no) rows returned") |}
  end.

Definition named (v : string) (s : Store) : list PersonRow :=
  filter (λ r, Name r = v) (persons s).

(** [.select('PersonID').eq('Name', v).single()] *)
Definition select_by_name (s : Store) (v : string) : PersonResult :=
  single (named v s).

Section Minting.

(** The id that the store gives to the n-th row it creates. *)
Variable mint : nat → string.

(** [.insert({ Name }).select('PersonID').single()] on a store that
    accepts the row. *)
Definition insert_person (s : Store) (name : string) : Store * PersonResult :=
  let r := {| PersonID := mint (minted s); Name := name |} in
  ({| persons := persons s ++ [r]; minted := S (minted s) |},
   {| data := Some r; error := None |}).

(** One page running [fetchOrCreatePerson] for a user with email [e]
    against the store, with nothing happening in between: the store and
    the [personId] cell afterwards. *)
Definition visit (s : Store) (u : Auth.User) (e : string)
    (personId : option string) : Store * option string :=
  let l := select_by_name s e in
  let ins := insert_person s (name_for (Auth.email u)) in
  let r := fetchOrCreatePerson (Some u) (Returned l) (Returned (snd ins)) personId in
  (if existsb is_network_call (snd r) then fst ins else s, fst r).

(** Two pages of the same user whose selects are both answered by the
    store before either insert reaches it: the store afterwards and the
    two [personId] cells. *)
Definition race (s : Store) (u : Auth.User) (e : string)
  : Store * option string * option string :=
  let l := select_by_name s e in
  let ins1 := insert_person s (name_for (Auth.email u)) in
  let r1 := fetchOrCreatePerson (Some u) (Returned l) (Returned (snd ins1)) None in
  let s1 := if existsb is_network_call (snd r1) then fst ins1 else s in
  let ins2 := insert_person s1 (name_for (Auth.email u)) in
  let r2 := fetchOrCreatePerson (Some u) (Returned l) (Returned (snd ins2)) None in
  (if existsb is_network_call (snd r2) then fst ins2 else s1, fst r1, fst r2).

(** [n] visits in a row. *)
Fixpoint visits (n : nat) (s : Store) (u : Auth.User) (e : string) : Store :=
  match n with
  | O => s
  | S n' => visits n' (fst (visit s u e None)) u e
  end.

End Minting.

End PersonLookup.

(** Inputs for the Person table and the dashboard. *)
Module Sums.

(** The id of the n-th row created, for concrete runs. *)
Definition mint_letters (n : nat) : string :=
  String.concat "" (replicate (S n) "p").

Definition empty_store : PersonLookup.Store :=
  {| PersonLookup.persons := []; PersonLookup.minted := 0%nat |}.

Definition doubled_store : PersonLookup.Store :=
  {| PersonLookup.persons :=
       [ {| PersonLookup.PersonID := "p"; PersonLookup.Name := "ann@example.org" |};
         {| PersonLookup.PersonID := "pp"; PersonLookup.Name := "ann@example.org" |} ];
     PersonLookup.minted := 2%nat |}.

(** An income and a rent payment of person 42, and a row without a type,
    with integer amounts. *)
Definition rent : Dashboard.TxType :=
  {| Dashboard.type_Name := "Rent";
     Dashboard.type_Category :=
       Some {| Dashboard.category_Name := "Housing";
               Dashboard.category_Type := "EXPENSE" |} |}.

Definition three_rows : list (Dashboard.Row (num:=Z)) :=
  [ {| Dashboard.PersonID := "42";
       Dashboard.row :=
         {| Dashboard.TransactionID := "a"; Dashboard.Amount := 3000;
            Dashboard.TransactionDate := 20;
            Dashboard.Type_ := Some Inputs.salary |} |};
    {| Dashboard.PersonID := "42";
       Dashboard.row :=
         {| Dashboard.TransactionID := "b"; Dashboard.Amount := 900;
            Dashboard.TransactionDate := 30;
            Dashboard.Type_ := Some rent |} |};
    {| Dashboard.PersonID := "7";
       Dashboard.row :=
         {| Dashboard.TransactionID := "c"; Dashboard.Amount := 5;
            Dashboard.TransactionDate := 40;
            Dashboard.Type_ := None |} |} ].

End Sums.

(** The bills page [src/app/(dashboard)/dashboard/bills/page.tsx]. *)
Module Bills.

(** A browser [File]: only name and type are read. *)
Record File : Type := mkFile {
  file_name : string;
  file_type : string
}.

(** [UploadedFile] *)
Record UploadedFile : Type := mkUploadedFile {
  file : File;
  preview : option string;
  uploading : bool;
  uploaded : bool;
  error : option string
}.

(** The state cells of [BillsPage], and the number of object URLs the page
    has asked the browser for. *)
Record Page : Type := mkPage {
  files : list UploadedFile;
  page_uploading : bool;
  urls_created : nat
}.

(** The storage path [`${user.id}/${Date.now()}.${fileExt}`], kept in its
    three parts, and the file sent. *)
Record UploadRequest : Type := mkUploadRequest {
  path_user : string;
  path_stamp : Z;
  path_ext : string;
  payload : File
}.

Inductive Effect : Type :=
  | Revoke (url : string)          (* URL.revokeObjectURL *)
  | Upload (r : UploadRequest)     (* supabase.storage.from('bills').upload *)
  | LogError (msg : string).       (* console.error *)

(** The segment after the last dot (character 46), [acc] being the segment
    read so far. *)
Fixpoint last_segment (acc s : string) : string :=
  match s with
  | EmptyString => acc
  | String c s' =>
      if Ascii.eqb c (Ascii.ascii_of_nat 46) then last_segment "" s'
      else last_segment (acc +:+ String c "") s'
  end.

(** [file.name.split('.').pop()] *)
Definition fileExt (name : string) : string := last_segment "" name.

Fixpoint has_dot (s : string) : bool :=
  match s with
  | EmptyString => false
  | String c s' => Ascii.eqb c (Ascii.ascii_of_nat 46) || has_dot s'
  end.

(** [if (f.preview)]: the URL to revoke, if the preview is a non-empty
    string. *)
Definition preview_url (f : UploadedFile) : option string :=
  match preview f with
  | Some url => if empty_string url then None else Some url
  | None => None
  end.

Definition revocations (f : UploadedFile) : list Effect :=
  match preview_url f with
  | Some url => [Revoke url]
  | None => []
  end.

Section Browser.

(** The n-th object URL the browser hands out. *)
Variable blob : nat → string.

(** The entries that [onDrop] builds for the accepted files, the first
    URL to hand out being number [n]. *)
Fixpoint new_entries (n : nat) (accepted : list File) : list UploadedFile * nat :=
  match accepted with
  | [] => ([], n)
  | f :: rest =>
      if String.prefix "image/" (file_type f) then
        let r := new_entries (S n) rest in
        ({| file := f; preview := Some (blob n); uploading := false;
            uploaded := false; error := None |} :: fst r, snd r)
      else
        let r := new_entries n rest in
        ({| file := f; preview := None; uploading := false;
            uploaded := false; error := None |} :: fst r, snd r)
  end.

(** [onDrop] *)
Definition onDrop (accepted : list File) (p : Page) : Page :=
  let r := new_entries (urls_created p) accepted in
  {| files := files p ++ fst r; page_uploading := page_uploading p;
     urls_created := snd r |}.

End Browser.

(** The page as the user has it: mounted with its state cells, or
    replaced by the error boundary after an update or a render of the
    page threw. *)
Inductive PageState : Type :=
  | Live (p : Page)
  | Crashed (e : JsError).

(** [removeFile]: the call only hands its updater to [setFiles] and
    returns.  The updater runs when React processes the update; reading
    [.preview] of a missing entry throws there, the render fails and the
    page is unmounted. *)
Definition removeFile (index : nat) (p : Page)
  : PageState * list Effect * Outcome unit :=
  match files p !! index with
  | None => (Crashed (Error "TypeError"), [], Returned tt)
  | Some f =>
      (Live {| files := delete index (files p);
               page_uploading := page_uploading p;
               urls_created := urls_created p |},
       revocations f, Returned tt)
  end.

(** [clearFiles] *)
Definition clearFiles (p : Page) : Page * list Effect :=
  ({| files := []; page_uploading := page_uploading p;
      urls_created := urls_created p |},
   concat (revocations <$> files p)).

Definition start_upload (f : UploadedFile) : UploadedFile :=
  {| file := file f; preview := preview f; uploading := true;
     uploaded := uploaded f; error := error f |}.
Definition mark_uploaded (f : UploadedFile) : UploadedFile :=
  {| file := file f; preview := preview f; uploading := false;
     uploaded := true; error := error f |}.
Definition mark_failed (msg : string) (f : UploadedFile) : UploadedFile :=
  {| file := file f; preview := preview f; uploading := false;
     uploaded := uploaded f; error := Some msg |}.

(** What is thrown inside the [try] for an answer of the upload. *)
Definition failure (a : Outcome (option JsError)) : option JsError :=
  match a with
  | Threw e => Some e
  | Returned (Some uploadError) => Some uploadError
  | Returned None => None
  end.

Section Uploading.

(** The signed-in user's id, the reading of the clock when the i-th file is
    named, and how the awaited upload of the i-th file ends. *)
Variables (user_id : string) (now : nat → Z)
          (answer : nat → Outcome (option JsError)).

Definition request (i : nat) (f : UploadedFile) : UploadRequest :=
  {| path_user := user_id; path_stamp := now i;
     path_ext := fileExt (file_name (file f)); payload := file f |}.

(** The [for] loop from index [i] on: [snapshot] holds [files[i..]] as the
    handler captured them, [cur] is the state the functional updates act
    on. *)
Fixpoint upload_loop (i : nat) (snapshot cur : list UploadedFile)
    (done : list Effect) : list UploadedFile * list Effect :=
  match snapshot with
  | [] => (cur, done)
  | f :: rest =>
      if uploaded f then upload_loop (S i) rest cur done
      else
        let cur1 := alter start_upload i cur in
        match failure (answer i) with
        | None =>
            upload_loop (S i) rest (alter mark_uploaded i cur1)
              (done ++ [Upload (request i f)])
        | Some e =>
            upload_loop (S i) rest
              (alter (mark_failed (AddExpense.message_or e "Upload failed")) i cur1)
              (done ++ [Upload (request i f); LogError "Upload error:"])
        end
  end.

End Uploading.

(** [uploadFiles] when the user does nothing on the page while the uploads
    are awaited: the state the updates act on is then the list the
    handler captured, with the updates made so far.  The run with the
    user acting in between is [uploadFiles_during] below. *)
Definition uploadFiles (user : option Auth.User) (now : nat → Z)
    (answer : nat → Outcome (option JsError)) (p : Page) : Page * list Effect :=
  match user with
  | None => (p, [])
  | Some u =>
      if Nat.eqb (length (files p)) 0 then (p, [])
      else
        let r := upload_loop (Auth.id u) now answer 0 (files p) (files p) [] in
        ({| files := fst r; page_uploading := false;
            urls_created := urls_created p |}, snd r)
  end.

(** What the user can do on the page while an upload is awaited: the
    [Upload All] and [Clear All] buttons are disabled while the page's
    [uploading] is true, the drop zone stays active, and the X button is
    rendered for each entry that is neither uploading nor uploaded. *)
Inductive UserEvent : Type :=
  | ClickRemove (index : nat)
  | DropFiles (accepted : list File).

(** [!fileItem.uploading && !fileItem.uploaded] for the entry rendered at
    [index]. *)
Definition removable (p : Page) (index : nat) : bool :=
  match files p !! index with
  | Some f => negb (uploading f) && negb (uploaded f)
  | None => false
  end.

Definition setUploading (b : bool) (p : Page) : Page :=
  {| files := files p; page_uploading := b; urls_created := urls_created p |}.

(** [setFiles(prev => { const newFiles = [...prev];
    newFiles[i] = { ...newFiles[i], ... }; return newFiles })].  Within
    the list the entry is replaced.  Past its end [newFiles[i]] is
    undefined, the spread gives an object without [file], the assignment
    extends the array, and the next render throws when it reads
    [fileItem.file.name].  On an unmounted page the update does
    nothing. *)
Definition write (g : UploadedFile → UploadedFile) (i : nat) (s : PageState)
  : PageState :=
  match s with
  | Crashed e => Crashed e
  | Live p =>
      if (i <? length (files p))%nat then
        Live {| files := alter g i (files p);
                page_uploading := page_uploading p;
                urls_created := urls_created p |}
      else Crashed (Error "TypeError")
  end.

Section Awaiting.

(** The object URLs of the browser, the signed-in user's id, the clock,
    how the awaited upload of the i-th file ends, and what the user does
    while it is awaited. *)
Variables (blob : nat → string) (user_id : string) (now : nat → Z)
          (answer : nat → Outcome (option JsError))
          (during : nat → list UserEvent).

(** One action of the user.  A click needs its button on the page. *)
Definition user_event (ev : UserEvent) (s : PageState)
  : PageState * list Effect :=
  match s with
  | Crashed e => (Crashed e, [])
  | Live p =>
      match ev with
      | ClickRemove index =>
          if removable p index then
            (fst (fst (removeFile index p)), snd (fst (removeFile index p)))
          else (Live p, [])
      | DropFiles accepted => (Live (onDrop blob accepted p), [])
      end
  end.

Fixpoint user_events (evs : list UserEvent) (s : PageState)
  : PageState * list Effect :=
  match evs with
  | [] => (s, [])
  | ev :: rest =>
      let r := user_event ev s in
      let r' := user_events rest (fst r) in
      (fst r', (snd r ++ snd r')%list)
  end.

(** The [for] loop from index [i] on: [snapshot] holds [files[i..]] as the
    handler captured them, [s] is the page the functional updates act
    on.  The upload is issued before the handler is suspended, the user
    acts while it is awaited, and the handler goes on with the answer,
    also when the page is gone. *)
Fixpoint upload_loop_during (i : nat) (snapshot : list UploadedFile)
    (s : PageState) (done : list Effect) : PageState * list Effect :=
  match snapshot with
  | [] => (s, done)
  | f :: rest =>
      if uploaded f then upload_loop_during (S i) rest s done
      else
        let s1 := write start_upload i s in
        let sent := Upload (request user_id now i f) in
        let r := user_events (during i) s1 in
        match failure (answer i) with
        | None =>
            upload_loop_during (S i) rest (write mark_uploaded i (fst r))
              (done ++ [sent] ++ snd r)%list
        | Some e =>
            upload_loop_during (S i) rest
              (write (mark_failed (AddExpense.message_or e "Upload failed")) i
                 (fst r))
              (done ++ [sent] ++ snd r ++ [LogError "Upload error:"])%list
        end
  end.

End Awaiting.

(** [uploadFiles], with what the user does while each upload is
    awaited. *)
Definition uploadFiles_during (blob : nat → string) (user : option Auth.User)
    (now : nat → Z) (answer : nat → Outcome (option JsError))
    (during : nat → list UserEvent) (p : Page) : PageState * list Effect :=
  match user with
  | None => (Live p, [])
  | Some u =>
      if Nat.eqb (length (files p)) 0 then (Live p, [])
      else
        let r := upload_loop_during blob (Auth.id u) now answer during 0
                   (files p) (Live (setUploading true p)) [] in
        (match fst r with
         | Live q => Live (setUploading false q)
         | Crashed e => Crashed e
         end, snd r)
  end.

(** What the loop makes of the i-th entry. *)
Definition settle (answer : nat → Outcome (option JsError)) (i : nat)
    (f : UploadedFile) : UploadedFile :=
  if uploaded f then f
  else match failure (answer i) with
       | None => mark_uploaded (start_upload f)
       | Some e =>
           mark_failed (AddExpense.message_or e "Upload failed") (start_upload f)
       end.

Definition is_upload (e : Effect) : bool :=
  match e with
  | Upload _ => true
  | _ => false
  end.

(** An empty page. *)
Definition empty_page : Page :=
  {| files := []; page_uploading := false; urls_created := 0 |}.

End Bills.

(** Closed forms used to describe the handlers of the bills page. *)
Module BillsSpec.
Import Bills.

(** What the loop does for the i-th entry. *)
Definition attempt_effects (user_id : string) (now : nat → Z)
    (answer : nat → Outcome (option JsError)) (i : nat) (f : UploadedFile)
  : list Effect :=
  if uploaded f then []
  else match failure (answer i) with
       | None => [Upload (request user_id now i f)]
       | Some _ => [Upload (request user_id now i f); LogError "Upload error:"]
       end.

(** [file.type.startsWith('image/')] *)
Definition is_image (f : File) : bool := String.prefix "image/" (file_type f).

Definition receipt_photo : File :=
  {| file_name := "receipt.2024.jpg"; file_type := "image/jpeg" |}.
Definition invoice : File :=
  {| file_name := "invoice"; file_type := "application/pdf" |}.

(** A page showing one file that has not been uploaded, an upload that is
    refused and one that is accepted. *)
Definition one_pending : Page :=
  {| files := [ {| file := invoice; preview := None; uploading := false;
                   uploaded := false; error := None |} ];
     page_uploading := false; urls_created := 0 |}.

Definition refused (i : nat) : Outcome (option JsError) :=
  Returned (Some (Error "Payload too large")).
Definition accepted (i : nat) : Outcome (option JsError) := Returned None.

(** Object URLs for concrete runs. *)
Definition blob_letters (n : nat) : string :=
  "blob:" +:+ String.concat "" (replicate n "x").

End BillsSpec.

(** * Properties *)

(** ** The effect monad *)

Section EffLemmas.
Import Auth.

Lemma bind_returned {A B} (m : Eff A) (k : A → Eff B) w w' a :
  m w = (w', Returned a) → (m ≫= k) w = k a w'.
Proof. intros H. unfold mbind, Eff_bind. by rewrite H. Qed.

Lemma bind_threw {A B} (m : Eff A) (k : A → Eff B) w w' e :
  m w = (w', Threw e) → (m ≫= k) w = (w', Threw e).
Proof. intros H. unfold mbind, Eff_bind. by rewrite H. Qed.

End EffLemmas.

(** Runs a handler symbolically: unfolds the monad and the state cells and
    leaves the operations on maps and lists alone. *)
Ltac run_eff :=
  cbv [Auth.signIn Auth.signUp Auth.signOut Auth.refreshPrivileges
       Auth.init Auth.init_test_mode Auth.on_getSession
       Auth.on_authStateChange Auth.lookup_done Auth.fetchPrivileges
       Auth.query_user_privileges Auth.createMockUser Auth.createMockSession
       Auth.read_clock Auth.try_catch Auth.throw Auth.modify Auth.set_auth
       Auth.set_storage Auth.setUser Auth.setSession Auth.setPrivileges
       Auth.setLoading Auth.localStorage_getItem Auth.localStorage_setItem
       Auth.localStorage_removeItem Auth.console_error Auth.start_lookup
       Auth.initial_world Auth.initial_auth Auth.truthy
       mbind mret Auth.Eff_bind Auth.Eff_ret];
  cbn [fst snd app Auth.auth Auth.localStorage Auth.console Auth.ticks
       Auth.in_flight Auth.user Auth.session Auth.privileges Auth.loading].

(** ** Sign-in, sign-up and sign-out in the provider *)

Section AuthFacts.
Import Auth Inputs.

(** What a test-mode sign-in with the designated pair does, by the answer
    of local storage to the write. *)
Lemma signIn_designated (env : Env) (w : World) :
  signIn env true "test@example.com" "password123" w
  = match storage_setItem env (localStorage w) "test_auth"
            (ProviderEvents.signed_in_item env w) with
    | None => (ProviderEvents.after_signIn env w, Returned tt)
    | Some e =>
        (ProviderEvents.signed_in_with env w (localStorage w), Threw e)
    end.
Proof.
  unfold signIn.
  replace (String.eqb "test@example.com" TEST_USER_email
           && String.eqb "password123" TEST_USER_password)
    with true by reflexivity.
  run_eff. unfold JSON_stringify.
  change (JsonRecord _ _) with (ProviderEvents.signed_in_item env w).
  by destruct (storage_setItem env (localStorage w) "test_auth"
                 (ProviderEvents.signed_in_item env w)).
Qed.

(** C4, as stated, fails when local storage refuses the write: the user,
    the session and the privileges are set, then [setItem] throws and the
    sign-in rejects with nothing stored. *)
Lemma signIn_rejects_on_full_storage :
  let r := signIn full_storage_env true "test@example.com" "password123"
             signed_out_world in
  snd r = Threw (Error "QuotaExceededError")
  ∧ id <$> user (auth (fst r)) = Some "test-user-id-12345"
  ∧ localStorage (fst r) !! "test_auth" = None
  ∧ ¬ (∀ (env : Env) (w : World),
         snd (signIn env true "test@example.com" "password123" w) = Returned tt).
Proof.
  repeat split; try reflexivity.
  intros H. specialize (H full_storage_env signed_out_world). discriminate H.
Qed.

(** C4, amended: in test mode, [signIn] with the designated credentials
    sets, in every world, the user to the mock identity with id
    test-user-id-12345 and email test@example.com, the session to a
    session of that identity, and each of the five privilege keys to true.
    When local storage accepts the write it returns normally and the item
    test_auth is the record whose user and session members are exactly
    that user and that session, every other item being untouched; when
    local storage refuses the write it throws the storage's error with the
    state set and storage as it was.  A second call leaves a user with the
    same id. *)
Theorem signIn_test_credentials (env : Env) (w : World) :
  let r := signIn env true "test@example.com" "password123" w in
  let r2 := signIn env true "test@example.com" "password123" (fst r) in
  (∃ u s p,
     user (auth (fst r)) = Some u ∧ session (auth (fst r)) = Some s
     ∧ privileges (auth (fst r)) = Some p
     ∧ id u = "test-user-id-12345" ∧ email u = Some "test@example.com"
     ∧ id (session_user s) = "test-user-id-12345"
     ∧ email (session_user s) = Some "test@example.com"
     ∧ Forall (λ k, p !! k = Some (JBool true))
         ["can_add_expense"; "can_add_income"; "can_view_reports";
          "can_upload_bills"; "can_download_reports"]
     ∧ match storage_setItem env (localStorage w) "test_auth"
               (JsonRecord (Some u) (Some s)) with
       | None =>
           snd r = Returned tt
           ∧ localStorage (fst r)
             = <["test_auth" := JsonRecord (Some u) (Some s)]> (localStorage w)
           ∧ localStorage (fst r) !! "test_auth"
             = Some (JsonRecord (Some u) (Some s))
       | Some e =>
           snd r = Threw e ∧ localStorage (fst r) = localStorage w
       end)
  ∧ id <$> user (auth (fst r2)) = Some "test-user-id-12345"
  ∧ id <$> user (auth (fst r2)) = id <$> user (auth (fst r)).
Proof.
  intros r r2.
  assert (Hu : ∀ w0, id <$> user (auth (fst (signIn env true "test@example.com"
                                               "password123" w0)))
                     = Some "test-user-id-12345").
  { intros w0. rewrite signIn_designated.
    by destruct (storage_setItem env (localStorage w0) "test_auth" _). }
  split; [|subst r r2; rewrite !Hu; by split].
  exists (ProviderEvents.signed_in_user env w),
         (ProviderEvents.signed_in_session env w), fullPrivileges.
  subst r. rewrite signIn_designated.
  change (JsonRecord (Some (ProviderEvents.signed_in_user env w))
            (Some (ProviderEvents.signed_in_session env w)))
    with (ProviderEvents.signed_in_item env w).
  destruct (storage_setItem env (localStorage w) "test_auth"
              (ProviderEvents.signed_in_item env w)) as [e|].
  - repeat split. repeat constructor.
  - repeat split; [repeat constructor|].
    unfold ProviderEvents.after_signIn, ProviderEvents.signed_in_with.
    cbn [fst localStorage]. apply lookup_insert_eq.
Qed.

(** C5: in test mode, [signIn] with any other credential pair throws the
    error with the fixed message and leaves the whole world (user,
    session, privileges, local storage, console) as it was. *)
Theorem signIn_other_credentials (env : Env) (w : World) (email password : string) :
  (email, password) ≠ ("test@example.com", "password123") →
  signIn env true email password w
  = (w, Threw (Error "Invalid test credentials. Use test@example.com / password123")).
Proof.
  intros Hne. unfold signIn.
  destruct (String.eqb_spec email TEST_USER_email) as [->|He];
    destruct (String.eqb_spec password TEST_USER_password) as [->|Hp];
    try reflexivity.
  by destruct Hne.
Qed.

Lemma signIn_other_credentials_witness :
  signIn offline_env true "x@y.com" "wrong" (initial_world ∅)
  = (initial_world ∅,
     Threw (Error "Invalid test credentials. Use test@example.com / password123")).
Proof.
  apply (signIn_other_credentials offline_env (initial_world ∅) "x@y.com" "wrong").
  discriminate.
Defined.

(** C6, as stated, fails in delegated mode: when the remote sign-out
    answers with an error, [signOut] throws it and the user stays signed
    in. *)
Lemma signOut_delegated_throws :
  signOut offline_env false signed_in_world
  = (signed_in_world, Threw (Error "Failed to fetch"))
  ∧ ¬ (∀ (env : Env) (test_mode : bool) (w : World),
         snd (signOut env test_mode w) = Returned tt).
Proof.
  split; [reflexivity|].
  intros H. specialize (H offline_env false signed_in_world). discriminate H.
Qed.

(** C6, amended: in test mode [signOut] always returns normally, clears
    user, session and privileges, removes the item test_auth and nothing
    else from local storage, and run again on its own result (or on any
    world without user, session and privileges) it changes nothing of the
    session state; in delegated mode it changes nothing itself and throws
    exactly when the remote sign-out answers with an error. *)
Theorem signOut_by_mode (env : Env) (w : World) :
  let w1 := fst (signOut env true w) in
  snd (signOut env true w) = Returned tt
  ∧ auth w1 = {| user := None; session := None; privileges := None;
                 loading := loading (auth w) |}
  ∧ localStorage w1 = delete "test_auth" (localStorage w)
  ∧ localStorage w1 !! "test_auth" = None
  ∧ signOut env true w1 = (w1, Returned tt)
  ∧ (∀ b st c t fl,
       let w0 := {| auth := {| user := None; session := None;
                               privileges := None; loading := b |};
                    localStorage := st; console := c; ticks := t;
                    in_flight := fl |} in
       auth (fst (signOut env true w0)) = auth w0)
  ∧ signOut env false w
    = (w, match auth_signOut env with
          | Some e => Threw e
          | None => Returned tt
          end).
Proof.
  destruct w as [[u s p l] st c t fl]. run_eff.
  repeat split; try reflexivity.
  - apply lookup_delete_eq.
  - by rewrite delete_delete_eq.
  - by destruct (auth_signOut env).
Qed.

(** C2, as stated, fails for a thrown exception: the catch block sets the
    privilege set to null. *)
Lemma fetchPrivileges_exception_gives_null :
  privileges (auth (fst (fetchPrivileges offline_env "6f1c2a9e" signed_out_world)))
  = None
  ∧ ¬ (∀ (env : Env) (userId : string) (f : LookupFailure) (w : World),
         privilege_query env userId = failure_answer f →
         snd (fetchPrivileges env userId w) = Returned tt
         ∧ privileges (auth (fst (fetchPrivileges env userId w)))
           = Some fullPrivileges).
Proof.
  split; [reflexivity|].
  intros H.
  destruct (H offline_env "6f1c2a9e" (ExceptionThrown (Error "Failed to fetch"))
              signed_out_world eq_refl) as [_ H2].
  discriminate H2.
Qed.

(** C2, amended: whatever the lookup does, [fetchPrivileges] returns
    normally and touches neither user, session, loading nor local storage;
    after a result with an error (which is also how an absent record is
    reported) the privilege set is the default record with the five keys
    true; after a thrown exception it is null; after a result without error
    it is the row that was returned. *)
Theorem fetchPrivileges_absorbs (env : Env) (userId : string) (w : World) :
  let w' := fst (fetchPrivileges env userId w) in
  snd (fetchPrivileges env userId w) = Returned tt
  ∧ user (auth w') = user (auth w)
  ∧ session (auth w') = session (auth w)
  ∧ loading (auth w') = loading (auth w)
  ∧ localStorage w' = localStorage w
  ∧ privileges (auth w')
    = match privilege_query env userId with
      | Threw _ => None
      | Returned r =>
          match error r with
          | Some _ => Some fullPrivileges
          | None => data r
          end
      end
  ∧ Forall (λ k, fullPrivileges !! k = Some (JBool true))
      ["can_add_expense"; "can_add_income"; "can_view_reports";
       "can_upload_bills"; "can_download_reports"].
Proof.
  unfold fetchPrivileges, try_catch, query_user_privileges, mbind, Eff_bind.
  destruct (privilege_query env userId) as [[d [e|]]|e]; cbn;
    repeat split; try reflexivity; repeat constructor.
Qed.

End AuthFacts.

(** ** Privileges and the loading flag *)

Section LoadingFacts.
Import Auth Provider Inputs.

(** C1, as stated, fails in delegated mode: when [getSession] resolves
    with a session (and likewise when an auth-state change carries one),
    the handler sets loading to false while the lookup it started is still
    in flight, so consumers see a user, loading false and a null privilege
    set. *)
Lemma delegated_loading_done_before_privileges :
  let w1 := fst (on_getSession (Some remote_session)
                   (mounted offline_env false ∅)) in
  let w2 := fst (on_authStateChange (Some remote_session)
                   (mounted offline_env false ∅)) in
  (user (auth w1) = Some remote_user ∧ loading (auth w1) = false
   ∧ privileges (auth w1) = None ∧ in_flight w1 = ["6f1c2a9e"])
  ∧ (user (auth w2) = Some remote_user ∧ loading (auth w2) = false
     ∧ privileges (auth w2) = None ∧ in_flight w2 = ["6f1c2a9e"]).
Proof. repeat split; reflexivity. Qed.

(** C1, amended: in test mode the mount effect writes the privilege set
    together with the user before it sets loading to false, so after it
    loading is false and a user never comes with a null privilege set,
    whatever local storage holds.  In delegated mode both callbacks, given
    a session, return normally with the session's user, loading false, the
    privilege set as it was before, and the lookup for that user appended
    to the lookups in flight: the lookup has been started, not finished.
    From the mounted world this is the state with a user, loading false
    and no privileges; the privilege set is written when the answer
    arrives. *)
Theorem privileges_when_loading_done (env : Env)
    (stored : gmap string StoredText) (s : Session) (w : World) :
  let m := mounted env true stored in
  let g := fst (on_getSession (Some s) w) in
  let c := fst (on_authStateChange (Some s) w) in
  let g0 := fst (on_getSession (Some s) (mounted env false stored)) in
  (loading (auth m) = false
   ∧ identity_without_privileges (auth m) = false)
  ∧ (snd (on_getSession (Some s) w) = Returned tt
     ∧ user (auth g) = Some (session_user s)
     ∧ loading (auth g) = false
     ∧ privileges (auth g) = privileges (auth w)
     ∧ in_flight g = (in_flight w ++ [id (session_user s)])%list)
  ∧ (snd (on_authStateChange (Some s) w) = Returned tt
     ∧ user (auth c) = Some (session_user s)
     ∧ loading (auth c) = false
     ∧ privileges (auth c) = privileges (auth w)
     ∧ in_flight c = (in_flight w ++ [id (session_user s)])%list)
  ∧ identity_without_privileges (auth g0) = true
  ∧ in_flight (fst (lookup_done env g0)) = []
  ∧ privileges (auth (fst (lookup_done env g0)))
    = match privilege_query env (id (session_user s)) with
      | Threw _ => None
      | Returned r =>
          match error r with
          | Some _ => Some fullPrivileges
          | None => data r
          end
      end.
Proof.
  repeat split; try reflexivity.
  - unfold mounted. run_eff.
    destruct (stored !! "test_auth") as [[raw| |u' s']|]; try reflexivity.
    destruct (empty_string raw); reflexivity.
  - unfold mounted, identity_without_privileges. run_eff.
    destruct (stored !! "test_auth") as [[raw| |[u'|] s']|]; try reflexivity.
    destruct (empty_string raw); reflexivity.
  - unfold mounted. run_eff.
    destruct (privilege_query env (id (session_user s))) as [[d [e|]]|e];
      reflexivity.
  - unfold mounted. run_eff.
    destruct (privilege_query env (id (session_user s))) as [[d [e|]]|e];
      reflexivity.
Qed.

(** Every handler leaves the loading flag alone or sets it to false, and in
    delegated mode a handler that leaves it alone leaves the user alone. *)
Lemma step_loading (env : Env) (test_mode : bool) (w : World) (ev : Event) :
  let w' := step env test_mode w ev in
  loading (auth w') = false
  ∨ (loading (auth w') = loading (auth w)
     ∧ (test_mode = true ∨ user (auth w') = user (auth w))).
Proof.
  destruct w as [[u s p l] st c t fl].
  destruct ev as [e pw|e pw| | |s'|s'|], test_mode; unfold step, handler;
    run_eff; cbn; auto.
  - destruct (String.eqb e TEST_USER_email && String.eqb pw TEST_USER_password);
      cbn; auto.
    destruct (storage_setItem env st "test_auth" _); cbn; auto.
  - destruct (auth_signInWithPassword env e pw); cbn; auto.
  - destruct (storage_setItem env st "test_auth" _); cbn; auto.
  - destruct (auth_signUp env e pw); cbn; auto.
  - destruct (auth_signOut env); cbn; auto.
  - destruct u as [u|]; cbn; auto.
    destruct (privilege_query env (id u)) as [[d [e|]]|e]; cbn; auto.
  - destruct u as [u|]; cbn; auto.
    destruct (privilege_query env (id u)) as [[d [e|]]|e]; cbn; auto.
  - destruct s'; cbn; auto.
  - destruct s'; cbn; auto.
  - destruct fl as [|uid fl]; cbn; auto.
    destruct (privilege_query env uid) as [[d [e|]]|e]; cbn; auto.
  - destruct fl as [|uid fl]; cbn; auto.
    destruct (privilege_query env uid) as [[d [e|]]|e]; cbn; auto.
Qed.

Lemma mounted_settled (env : Env) (test_mode : bool)
    (stored : gmap string StoredText) :
  loading_settled test_mode (auth (mounted env test_mode stored)).
Proof.
  destruct test_mode.
  - left. unfold mounted. run_eff.
    destruct (stored !! "test_auth") as [[raw| |u' s']|]; try reflexivity.
    destruct (empty_string raw); reflexivity.
  - right. split; reflexivity.
Qed.

Lemma run_settled (env : Env) (test_mode : bool) (evs : list Event) (w : World) :
  loading_settled test_mode (auth w) →
  loading_settled test_mode (auth (run env test_mode evs w)).
Proof.
  revert w. induction evs as [|ev evs IH]; intros w Hw; [exact Hw|].
  cbn. apply IH.
  destruct (step_loading env test_mode w ev) as [Hf|[Hl Hu]]; [by left|].
  destruct Hw as [Hw|[Hm Hw]].
  - left. congruence.
  - right. split; [exact Hm|]. destruct Hu as [Hu|Hu]; congruence.
Qed.

(** In every state a mounted provider can reach, a user is present only
    when loading is false: the guard's third state is (loading false,
    user present). *)
Lemma user_implies_loaded (env : Env) (test_mode : bool)
    (stored : gmap string StoredText) (evs : list Event) :
  let w := run env test_mode evs (mounted env test_mode stored) in
  is_Some (user (auth w)) → loading (auth w) = false.
Proof.
  intros w [u Hu].
  destruct (run_settled env test_mode evs _ (mounted_settled env test_mode stored))
    as [H|[_ H]]; [exact H|].
  fold w in H. congruence.
Qed.

End LoadingFacts.

(** ** Visibility and the active entry in the sidebar *)

Section SidebarFacts.
Import Auth Sidebar.

(** C3, as stated, fails: a key that is missing from the resolved record
    reads as undefined, which is not strictly equal to true, so the entry
    is hidden. *)
Lemma absent_key_is_hidden :
  let p : UserPrivileges := <["can_add_income" := JBool true]> ∅ in
  p !! "can_add_expense" = None
  ∧ hasPrivilege (Some p) (Some "can_add_expense") = false
  ∧ (href <$> navItems) !! 1%nat = Some "/dashboard/expenses/add"
  ∧ link_href <$> nav "/dashboard" (Some p) = ["/dashboard"; "/dashboard/income/add"].
Proof. repeat split; reflexivity. Qed.

(** C3, amended: for every resolved privilege record and every key that is
    absent from it, [hasPrivilege] returns false and the entry with that
    key is not rendered. *)
Theorem absent_key_hides_entry (p : UserPrivileges) (k : PrivilegeKey)
    (pathname : string) (item : NavItem) :
  p !! key_string k = None →
  privilegeKey item = Some k →
  hasPrivilege (Some p) (Some (key_string k)) = false
  ∧ visible (Some p) item = false
  ∧ render_item pathname (Some p) item = None.
Proof.
  intros Hk Hitem.
  assert (H : hasPrivilege (Some p) (Some (key_string k)) = false).
  { unfold hasPrivilege. destruct k; cbn in *; by rewrite Hk. }
  unfold render_item, visible. rewrite Hitem. cbn [fmap option_fmap option_map].
  by rewrite H.
Qed.

Lemma absent_key_hides_entry_witness :
  hasPrivilege (Some ∅) (Some "can_view_reports") = false
  ∧ visible (Some ∅)
      {| name := "Reports & Analytics"; href := "/dashboard/reports";
         privilegeKey := Some can_view_reports |} = false
  ∧ render_item "/dashboard"
      (Some ∅)
      {| name := "Reports & Analytics"; href := "/dashboard/reports";
         privilegeKey := Some can_view_reports |} = None.
Proof.
  apply (absent_key_hides_entry ∅ can_view_reports "/dashboard"
           {| name := "Reports & Analytics"; href := "/dashboard/reports";
              privilegeKey := Some can_view_reports |}); reflexivity.
Defined.

(** At most one link is active when the hrefs of the items differ. *)
Lemma at_most_one_active (pathname : string) (privs : option UserPrivileges)
    (items : list NavItem) :
  NoDup (href <$> items) →
  (length (List.filter isActive (omap (render_item pathname privs) items)) ≤ 1)%nat
  ∧ (pathname ∉ href <$> items →
     List.filter isActive (omap (render_item pathname privs) items) = []).
Proof.
  induction items as [|it items IH]; intros Hnd.
  - split; [cbn; lia|done].
  - rewrite fmap_cons in Hnd |- *.
    apply NoDup_cons in Hnd as [Hnotin Hnd]. destruct (IH Hnd) as [IH1 IH2].
    change (omap (render_item pathname privs) (it :: items))
      with (match render_item pathname privs it with
            | Some y => y :: omap (render_item pathname privs) items
            | None => omap (render_item pathname privs) items
            end).
    destruct (render_item pathname privs it) as [l|] eqn:Hr.
    + assert (Hl : isActive l = String.eqb pathname (href it)).
      { unfold render_item in Hr. destruct (negb _); [discriminate|].
        by inversion Hr. }
      cbn [List.filter]. rewrite Hl.
      destruct (String.eqb_spec pathname (href it)) as [->|Hne].
      * rewrite (IH2 Hnotin). split; [cbn; lia|].
        intros Hn. exfalso. apply Hn. apply list_elem_of_here.
      * split; [exact IH1|]. intros Hn. apply IH2.
        intros Hin. apply Hn. by apply list_elem_of_further.
    + split; [exact IH1|]. intros Hn. apply IH2.
      intros Hin. apply Hn. by apply list_elem_of_further.
Qed.

Lemma navItems_hrefs_differ : NoDup (href <$> navItems).
Proof. apply (bool_decide_unpack (NoDup (href <$> navItems))). vm_compute. exact I. Qed.

(** C7: what is rendered depends only on the path and the privilege set.
    An item without a key is visible; with a null privilege set every
    item is visible; with a privilege set, an item with a key is visible
    exactly when the key maps to true.  For every path, every rendered
    link is active exactly when its href is the path, character for
    character, and at most one rendered link is active. *)
Theorem navigation_visibility (pathname : string) (p : UserPrivileges)
    (privs : option UserPrivileges) (n h : string) (k : PrivilegeKey)
    (item : NavItem) :
  visible privs {| name := n; href := h; privilegeKey := None |} = true
  ∧ visible None item = true
  ∧ visible (Some p) {| name := n; href := h; privilegeKey := Some k |}
    = bool_decide (p !! key_string k = Some (JBool true))
  ∧ nav pathname privs
    = omap (λ it, if visible privs it
                  then Some {| link_href := href it; link_name := name it;
                               isActive := bool_decide (pathname = href it) |}
                  else None) navItems
  ∧ Forall (λ l, isActive l = bool_decide (link_href l = pathname))
      (nav pathname privs)
  ∧ (length (List.filter isActive (nav pathname privs)) ≤ 1)%nat.
Proof.
  split; [reflexivity|].
  split; [unfold visible, hasPrivilege; by destruct (no_key _)|].
  split.
  { unfold visible, hasPrivilege. cbn [privilegeKey fmap option_fmap option_map].
    replace (no_key (Some (key_string k))) with false by (by destruct k).
    cbn. destruct (p !! key_string k) as [[|[]| |]|]; reflexivity. }
  assert (Heq : ∀ a b : string, String.eqb a b = bool_decide (a = b)).
  { intros a b. destruct (String.eqb_spec a b).
    - by rewrite bool_decide_eq_true_2.
    - by rewrite bool_decide_eq_false_2. }
  split.
  { unfold nav. generalize navItems. intros items.
    induction items as [|it items IH]; [reflexivity|].
    cbn [omap list_omap]. rewrite <- IH.
    unfold render_item at 1, visible at 1. rewrite Heq.
    by destruct (hasPrivilege _ _). }
  split.
  { unfold nav. generalize navItems. intros items.
    induction items as [|it items IH]; cbn; [constructor|].
    unfold render_item at 1.
    destruct (hasPrivilege privs (key_string <$> privilegeKey it)); cbn;
      [|exact IH].
    constructor; [|exact IH]. cbn. rewrite Heq.
    apply bool_decide_ext. split; congruence. }
  apply at_most_one_active, navItems_hrefs_differ.
Qed.

End SidebarFacts.

(** ** The route guard *)

Section GuardFacts.
Import Guard.

Context {U : Type} (same : U → U → bool).





End GuardFacts.

(** ** Validation in the add-expense pages *)

Section AddExpenseFacts.
Import Inputs.

(** C8, as stated, fails when the guard that comes first fires: with the
    amount empty but the Person row not resolved (or, on the other page,
    nobody signed in) the error is the logged-in message. *)
Lemma missing_amount_without_person :
  AddExpense.handleSubmit (Some remote_user) (Returned None) page_without_person
  = (AddExpense.setError "You must be logged in to add expenses"
       page_without_person, [PreventDefault])
  ∧ AddExpenseLegacy.handleSubmit None (Returned None) legacy_page
    = (AddExpenseLegacy.setError "You must be logged in to add expenses"
         legacy_page, [PreventDefault]).
Proof. split; reflexivity. Qed.

(** C8, amended: when a user is signed in (and, on the page that writes
    Transaction rows, the Person id is resolved), a submission in which
    amount, type (category on the other page) or date is empty sets the
    error to the fixed text, performs no network call whatever the remote
    service would have answered, and leaves the form data and every other
    cell of the page as they were. *)
Theorem submit_with_missing_field (u : Auth.User)
    (answer : Outcome (option JsError))
    (p : AddExpense.Page) (q : AddExpenseLegacy.Page) :
  AddExpense.no_person (AddExpense.personId p) = false →
  AddExpense.required_missing (AddExpense.formData p) = true →
  AddExpenseLegacy.required_missing (AddExpenseLegacy.formData q) = true →
  let '(p', acts) := AddExpense.handleSubmit (Some u) answer p in
  let '(q', acts') := AddExpenseLegacy.handleSubmit (Some u) answer q in
  (AddExpense.error p' = "Please fill in all required fields"
   ∧ List.filter is_network_call acts = []
   ∧ AddExpense.formData p' = AddExpense.formData p
   ∧ p' = AddExpense.setError "Please fill in all required fields" p)
  ∧ (AddExpenseLegacy.error q' = "Please fill in all required fields"
     ∧ List.filter is_network_call acts' = []
     ∧ AddExpenseLegacy.formData q' = AddExpenseLegacy.formData q
     ∧ q' = AddExpenseLegacy.setError "Please fill in all required fields" q).
Proof.
  intros Hperson Hp Hq.
  unfold AddExpense.handleSubmit, AddExpenseLegacy.handleSubmit.
  cbn [absent orb]. rewrite Hperson, Hp, Hq.
  repeat split.
Qed.

Lemma submit_with_missing_field_witness :
  let '(p', acts) :=
    AddExpense.handleSubmit (Some remote_user) (Returned None) page_with_person in
  let '(q', acts') :=
    AddExpenseLegacy.handleSubmit (Some remote_user) (Returned None) legacy_page in
  (AddExpense.error p' = "Please fill in all required fields"
   ∧ List.filter is_network_call acts = []
   ∧ AddExpense.formData p' = AddExpense.formData page_with_person
   ∧ p' = AddExpense.setError "Please fill in all required fields" page_with_person)
  ∧ (AddExpenseLegacy.error q' = "Please fill in all required fields"
     ∧ List.filter is_network_call acts' = []
     ∧ AddExpenseLegacy.formData q' = AddExpenseLegacy.formData legacy_page
     ∧ q' = AddExpenseLegacy.setError "Please fill in all required fields" legacy_page).
Proof.
  apply (submit_with_missing_field remote_user (Returned None)
           page_with_person legacy_page); reflexivity.
Defined.

End AddExpenseFacts.

(** ** The dashboard statistics *)

Section DashboardFacts.
Import Dashboard.

Context {num : Type} (zero : num) (add sub : num → num → num).

#[local] Instance newer_first_total : Total (newer_first (num:=num)).
Proof. intros a b. unfold newer_first. lia. Qed.

#[local] Instance newer_first_trans : Transitive (newer_first (num:=num)).
Proof. intros a b c. unfold newer_first. lia. Qed.

(** The boolean test of the source selects the transactions whose
    direction is the given one. *)
Lemma filter_direction (d : string) (txns : list (Transaction (num:=num))) :
  List.filter (has_direction d) txns = filter (λ t, direction t = Some d) txns.
Proof.
  induction txns as [|t txns IH]; [reflexivity|].
  cbn [List.filter]. rewrite filter_cons, IH. unfold has_direction.
  destruct (direction t) as [s|].
  - destruct (String.eqb_spec s d) as [->|Hne].
    + by rewrite decide_True.
    + rewrite decide_False; [done|congruence].
  - by rewrite decide_False.
Qed.

Lemma has_direction_decide (d : string) (t : Transaction (num:=num)) :
  has_direction d t = bool_decide (direction t = Some d).
Proof.
  unfold has_direction. destruct (direction t) as [s|].
  - destruct (String.eqb_spec s d) as [->|Hne].
    + by rewrite bool_decide_eq_true_2.
    + rewrite bool_decide_eq_false_2; [done|congruence].
  - by rewrite bool_decide_eq_false_2.
Qed.

Lemma fold_left_pointwise {A B} (f g : A → B → A) (l : list B) (a : A) :
  (∀ x y, f x y = g x y) → fold_left f l a = fold_left g l a.
Proof.
  intros Hfg. revert a. induction l as [|b l IH]; intros a; [reflexivity|].
  cbn. by rewrite Hfg, IH.
Qed.

(** The select returns at most ten rows, newest first, and every row of
    the person that it leaves out is at most as recent as each row it
    returns. *)
Lemma select_recent_window (table : list (Row (num:=num))) (pid : string) :
  let mine := row <$> filter (λ r, PersonID r = pid) table in
  let older := drop 10 (merge_sort newer_first mine) in
  (length (select_recent table pid) ≤ 10)%nat
  ∧ select_recent table pid ++ older ≡ₚ mine
  ∧ StronglySorted newer_first (select_recent table pid)
  ∧ Forall (λ x, Forall (λ y, (TransactionDate y ≤ TransactionDate x)%Z) older)
      (select_recent table pid).
Proof.
  intros mine older. unfold select_recent. fold mine.
  pose proof (StronglySorted_merge_sort newer_first mine) as Hs.
  rewrite <- (take_drop 10 (merge_sort newer_first mine)) in Hs.
  apply StronglySorted_app in Hs as (Hcross & Hl & _).
  split; [rewrite length_take; lia|].
  split; [unfold older; by rewrite take_drop, merge_sort_Permutation|].
  split; [exact Hl|].
  apply Forall_forall. intros x Hx. apply Forall_forall. intros y Hy.
  exact (Hcross x y Hx Hy).
Qed.

(** The test of the source, written out on the joined record: the row has
    a [Type], the type has a [Category], and the category's [Type] is the
    given string. *)
Lemma has_direction_joined (d : string) (t : Transaction (num:=num)) :
  has_direction d t
  = match Type_ t with
    | Some ty => match type_Category ty with
                 | Some c => String.eqb (category_Type c) d
                 | None => false
                 end
    | None => false
    end.
Proof.
  unfold has_direction, direction.
  destruct (Type_ t) as [ty|]; [|reflexivity].
  cbn. by destruct (type_Category ty).
Qed.

Lemma filter_pointwise {A} (f g : A → bool) (l : list A) :
  (∀ x, f x = g x) → List.filter f l = List.filter g l.
Proof.
  intros Hfg. induction l as [|a l IH]; [reflexivity|].
  cbn. by rewrite Hfg, IH.
Qed.

(** C10: when the Person row exists and the remote service answers the
    select as issued, the page keeps the person's transactions ordered by
    date descending and cut to ten, older rows being left out; the four
    statistics are computed from these rows only.  A row counts as
    income when it has a Type whose Category has the Type INCOME, and
    as expense when that string is EXPENSE; a row without a joined Type
    or Category counts as neither.  Total income adds the amounts of the
    income rows, total expenses those of the expense rows, net balance
    is total income minus total expenses, and the month's net is taken
    over the rows of the window dated at or after the instant
    [thisMonthStart], adding the income rows and subtracting every
    other row. *)
Theorem dashboard_stats_window (table : list (Row (num:=num))) (pid : string)
    (thisMonthStart : Z) (p : Page (num:=num)) :
  let mine := row <$> filter (λ r, PersonID r = pid) table in
  let window := select_recent table pid in
  let older := drop 10 (merge_sort newer_first mine) in
  let p' := fetchTransactions zero add sub (Returned (Some pid))
              (answer_from table) thisMonthStart p in
  let counts_as (d : string) (t : Transaction (num:=num)) : bool :=
    match Type_ t with
    | Some {| type_Category := Some {| category_Type := s |} |} =>
        String.eqb s d
    | _ => false
    end in
  (length window ≤ 10)%nat
  ∧ window ++ older ≡ₚ mine
  ∧ StronglySorted newer_first window
  ∧ Forall (λ x, Forall (λ y, (TransactionDate y ≤ TransactionDate x)%Z) older)
      window
  ∧ transactions p' = window
  ∧ loading p' = false
  ∧ totalIncome (stats p')
    = fold_left (λ sum t, add sum (Amount t))
        (List.filter (counts_as "INCOME") window) zero
  ∧ totalExpenses (stats p')
    = fold_left (λ sum t, add sum (Amount t))
        (List.filter (counts_as "EXPENSE") window) zero
  ∧ netBalance (stats p') = sub (totalIncome (stats p')) (totalExpenses (stats p'))
  ∧ thisMonth (stats p')
    = fold_left
        (λ sum t, if counts_as "INCOME" t
                  then add sum (Amount t) else sub sum (Amount t))
        (filter (λ t, (thisMonthStart ≤ TransactionDate t)%Z) window) zero.
Proof.
  intros mine window older p' counts_as.
  assert (Hc : ∀ d t, has_direction d t = counts_as d t).
  { intros d t. rewrite has_direction_joined. subst counts_as. cbv beta.
    destruct (Type_ t) as [[n [[cn ct]|]]|]; reflexivity. }
  destruct (select_recent_window table pid) as (H1 & H2 & H3 & H4).
  do 4 (split; [assumption|]).
  subst p'. cbn.
  split; [reflexivity|]. split; [reflexivity|].
  fold window. unfold total.
  rewrite !(filter_pointwise _ _ _ (Hc _)).
  do 3 (split; [reflexivity|]).
  unfold thisMonthNet.
  replace (List.filter (λ t, (thisMonthStart <=? TransactionDate t)%Z) window)
    with (filter (λ t, (thisMonthStart ≤ TransactionDate t)%Z) window).
  2:{ induction window as [|t l IH]; [reflexivity|].
      cbn [List.filter]. rewrite filter_cons, IH.
      destruct (Z.leb_spec thisMonthStart (TransactionDate t)).
      - by rewrite decide_True.
      - rewrite decide_False; [done|lia]. }
  apply fold_left_pointwise. intros x t. by rewrite Hc.
Qed.

End DashboardFacts.

(** On integer amounts: of eleven incomes of one unit the page totals ten,
    the ten most recent; the oldest one is not part of any statistic. *)
Lemma stats_leave_out_older_rows :
  let p' := Dashboard.fetchTransactions 0 Z.add Z.sub (Returned (Some "42"))
              (Dashboard.answer_from Inputs.eleven_incomes) 0
              (Dashboard.initial_page 0) in
  Dashboard.totalIncome (Dashboard.stats p') = 10
  ∧ Dashboard.netBalance (Dashboard.stats p') = 10
  ∧ fold_left (λ sum r, sum + Dashboard.Amount (Dashboard.row r))
      Inputs.eleven_incomes 0 = 11
  ∧ Dashboard.TransactionDate <$> Dashboard.transactions p'
    = (λ d, 86400000 * d) <$> [11; 10; 9; 8; 7; 6; 5; 4; 3; 2].
Proof. vm_compute. repeat split. Qed.

(** * Further properties *)

(** ** The provider: sign-up, persistence, corrupt storage *)

Section ProviderMore.
Import Auth Provider ProviderEvents Inputs.

Lemma signOut_test_mode (env : Env) (w : World) :
  signOut env true w = (after_signOut w, Returned tt).
Proof. reflexivity. Qed.

Lemma fetchPrivileges_world (env : Env) (userId : string) (w : World) :
  fetchPrivileges env userId w
  = ({| auth := {| user := user (auth w); session := session (auth w);
                   privileges := looked_up (privilege_query env userId);
                   loading := loading (auth w) |};
        localStorage := localStorage w;
        console := console w ++ lookup_log (privilege_query env userId);
        ticks := ticks w; in_flight := in_flight w |}, Returned tt).
Proof.
  destruct w as [[u s p l] st c t fl]. run_eff. unfold looked_up, lookup_log.
  destruct (privilege_query env userId) as [[d [e|]]|e]; cbn;
    rewrite ?app_nil_r; reflexivity.
Qed.

Lemma callbacks_with_session (s : Session) (w : World) :
  on_getSession (Some s) w = (with_session s w, Returned tt)
  ∧ on_authStateChange (Some s) w = (with_session s w, Returned tt).
Proof. split; reflexivity. Qed.

Lemma authStateChange_without_session (w : World) :
  on_authStateChange None w
  = ({| auth := {| user := None; session := None; privileges := None;
                   loading := false |};
        localStorage := localStorage w; console := console w;
        ticks := ticks w; in_flight := in_flight w |}, Returned tt).
Proof. reflexivity. Qed.

Lemma lookup_done_next (env : Env) (w : World) (userId : string)
    (rest : list string) :
  in_flight w = userId :: rest →
  lookup_done env w
  = fetchPrivileges env userId
      {| auth := auth w; localStorage := localStorage w; console := console w;
         ticks := ticks w; in_flight := rest |}.
Proof. intros H. unfold lookup_done. by rewrite H. Qed.

Lemma mounted_delegated (env : Env) (stored : gmap string StoredText) :
  mounted env false stored = initial_world stored.
Proof. reflexivity. Qed.

Lemma step_with_session (env : Env) (w : World) (s : Session) :
  step env false w (GetSessionResolved (Some s)) = with_session s w
  ∧ step env false w (AuthStateChanged (Some s)) = with_session s w.
Proof. split; reflexivity. Qed.

Lemma step_signed_out (env : Env) (w : World) :
  step env false w (AuthStateChanged None)
  = {| auth := {| user := None; session := None; privileges := None;
                  loading := false |};
       localStorage := localStorage w; console := console w;
       ticks := ticks w; in_flight := in_flight w |}.
Proof. reflexivity. Qed.

Lemma step_lookup (env : Env) (test_mode : bool) (w : World) (userId : string)
    (rest : list string) :
  in_flight w = userId :: rest →
  step env test_mode w LookupAnswered
  = {| auth := {| user := user (auth w); session := session (auth w);
                  privileges := looked_up (privilege_query env userId);
                  loading := loading (auth w) |};
       localStorage := localStorage w;
       console := console w ++ lookup_log (privilege_query env userId);
       ticks := ticks w; in_flight := rest |}.
Proof.
  intros H. unfold step, handler. rewrite (lookup_done_next env w userId rest H).
  by rewrite fetchPrivileges_world.
Qed.

Lemma init_test_mode_record (w : World) (u : option User) (s : option Session) :
  localStorage w !! "test_auth" = Some (JsonRecord u s) →
  init_test_mode w
  = ({| auth := {| user := u; session := s;
                   privileges := Some fullPrivileges; loading := false |};
        localStorage := localStorage w; console := console w;
        ticks := ticks w; in_flight := in_flight w |}, Returned tt).
Proof. intros H. run_eff. by rewrite H. Qed.

Lemma init_test_mode_none (w : World) :
  localStorage w !! "test_auth" = None →
  init_test_mode w
  = ({| auth := {| user := user (auth w); session := session (auth w);
                   privileges := privileges (auth w); loading := false |};
        localStorage := localStorage w; console := console w;
        ticks := ticks w; in_flight := in_flight w |}, Returned tt).
Proof. intros H. run_eff. by rewrite H. Qed.

(** X1: in test mode [signUp] does not look at its arguments: for every
    email and password it does exactly what [signIn] does for the
    designated pair.  It signs in the mock identity, and it returns
    normally with the stored item replaced when local storage accepts the
    write, and throws the storage's error with storage as it was when the
    write is refused. *)
Theorem signUp_ignores_credentials (env : Env) (w : World)
    (email password : string) :
  let r := signUp env true email password w in
  r = signIn env true "test@example.com" "password123" w
  ∧ id <$> user (auth (fst r)) = Some "test-user-id-12345"
  ∧ match storage_setItem env (localStorage w) "test_auth"
            (JsonRecord (Some (mock_user (clock env (ticks w))))
               (Some (mock_session (clock env (S (ticks w)))
                        (clock env (S (S (ticks w))))))) with
    | None =>
        snd r = Returned tt
        ∧ localStorage (fst r) !! "test_auth"
          = Some (JsonRecord (Some (mock_user (clock env (ticks w))))
                    (Some (mock_session (clock env (S (ticks w)))
                             (clock env (S (S (ticks w)))))))
    | Some e => snd r = Threw e ∧ localStorage (fst r) = localStorage w
    end.
Proof.
  intros r.
  assert (Hr : r = signIn env true "test@example.com" "password123" w)
    by reflexivity.
  split; [exact Hr|]. rewrite Hr, signIn_designated.
  change (JsonRecord _ _) with (signed_in_item env w).
  destruct (storage_setItem env (localStorage w) "test_auth"
              (signed_in_item env w)) as [e|].
  - repeat split.
  - repeat split. unfold after_signIn, signed_in_with. cbn [fst localStorage].
    apply lookup_insert_eq.
Qed.

(** X2: what test-mode [signIn] writes to local storage is read back by
    the mount effect of a freshly loaded page: when the sign-in returns,
    the page loaded afterwards has the same user and session, the full
    privilege set, loading false, and the stored item left in place.
    When local storage refuses the write, the sign-in throws and storage
    is as it was, so the page loaded afterwards is the one that would
    have been loaded before. *)
Theorem signIn_survives_reload (env env' : Env) (w : World) :
  let r := signIn env true "test@example.com" "password123" w in
  let w1 := fst r in
  let m := mounted env' true (localStorage w1) in
  match snd r with
  | Returned _ =>
      user (auth m) = user (auth w1)
      ∧ session (auth m) = session (auth w1)
      ∧ is_Some (user (auth m))
      ∧ privileges (auth m) = Some fullPrivileges
      ∧ loading (auth m) = false
      ∧ localStorage m = localStorage w1
      ∧ console m = []
  | Threw e =>
      storage_setItem env (localStorage w) "test_auth"
        (JsonRecord (user (auth w1)) (session (auth w1))) = Some e
      ∧ localStorage w1 = localStorage w
      ∧ m = mounted env' true (localStorage w)
  end.
Proof.
  intros r w1 m. subst r w1 m. rewrite signIn_designated.
  destruct (storage_setItem env (localStorage w) "test_auth"
              (signed_in_item env w)) as [e|] eqn:Hs.
  - cbn [fst snd]. repeat split. exact Hs.
  - cbn [fst snd]. unfold mounted, init.
    rewrite (init_test_mode_record _ (Some (signed_in_user env w))
               (Some (signed_in_session env w)))
      by apply lookup_insert_eq.
    cbn. repeat split; eauto.
Qed.

(** X3: in test mode [signOut] after [signIn] clears user, session and
    privileges, and when storage held no test_auth item before, storage
    is back to exactly what it was; a page loaded then finds nobody
    signed in. *)
Theorem signOut_undoes_signIn (env : Env) (w : World) :
  localStorage w !! "test_auth" = None →
  let w2 := fst (signOut env true
                   (fst (signIn env true "test@example.com" "password123" w))) in
  localStorage w2 = localStorage w
  ∧ user (auth w2) = None ∧ session (auth w2) = None
  ∧ privileges (auth w2) = None
  ∧ user (auth (mounted env true (localStorage w2))) = None.
Proof.
  intros Hnone w2. subst w2.
  rewrite signIn_designated.
  assert (Hm : user (auth (mounted env true (localStorage w))) = None).
  { unfold mounted, init. by rewrite init_test_mode_none. }
  destruct (storage_setItem env (localStorage w) "test_auth"
              (signed_in_item env w)) as [e|];
    cbn [fst]; rewrite signOut_test_mode; cbn [fst];
    unfold after_signOut, after_signIn, signed_in_with;
    cbn [localStorage auth user session privileges].
  - rewrite (delete_id _ _ Hnone). by repeat split.
  - rewrite (delete_insert_id _ _ _ Hnone). by repeat split.
Qed.

Lemma signOut_undoes_signIn_witness :
  let w2 := fst (signOut offline_env true
                   (fst (signIn offline_env true "test@example.com"
                           "password123" signed_out_world))) in
  localStorage w2 = localStorage signed_out_world
  ∧ user (auth w2) = None ∧ session (auth w2) = None
  ∧ privileges (auth w2) = None
  ∧ user (auth (mounted offline_env true (localStorage w2))) = None.
Proof.
  apply (signOut_undoes_signIn offline_env signed_out_world). reflexivity.
Defined.

(** X4: when the stored test_auth item cannot be read (it is not JSON, or
    it is the JSON null), the test-mode mount effect never throws: nobody
    is signed in, loading is false, and unless the item is the empty
    string (which the effect skips and leaves in place) the item is
    removed and the failure is logged once. *)
Theorem init_discards_unreadable_item (env : Env)
    (stored : gmap string StoredText) (t : StoredText) :
  stored !! "test_auth" = Some t →
  unreadable t = true →
  let r := init true (initial_world stored) in
  snd r = Returned tt
  ∧ auth (fst r) = {| user := None; session := None; privileges := None;
                      loading := false |}
  ∧ localStorage (fst r)
    = (if truthy t then delete "test_auth" stored else stored)
  ∧ console (fst r)
    = (if truthy t then ["Error loading test auth:"] else []).
Proof.
  intros Hs Hu r. subst r. run_eff. rewrite Hs.
  destruct t as [raw| |u s]; [| |discriminate].
  - destruct (empty_string raw); cbn; repeat split.
  - cbn. repeat split.
Qed.

Lemma init_discards_unreadable_item_witness :
  let stored : gmap string StoredText := <["test_auth" := NotJson "{user:"]> ∅ in
  let r := init true (initial_world stored) in
  snd r = Returned tt
  ∧ auth (fst r) = {| user := None; session := None; privileges := None;
                      loading := false |}
  ∧ localStorage (fst r)
    = (if truthy (NotJson "{user:") then delete "test_auth" stored else stored)
  ∧ console (fst r)
    = (if truthy (NotJson "{user:") then ["Error loading test auth:"] else []).
Proof.
  apply (init_discards_unreadable_item offline_env
           (<["test_auth" := NotJson "{user:"]> ∅) (NotJson "{user:"));
    reflexivity.
Defined.




(** X6: [refreshPrivileges] has no test-mode branch: after a test-mode
    sign-in it asks the remote service about the mock identity and
    replaces the full privilege set by whatever that lookup gives (null
    when the lookup throws); it never throws and keeps the user.  When
    nobody is signed in it changes nothing. *)
Theorem refreshPrivileges_asks_remote (env : Env) (w : World) :
  let w1 := fst (signIn env true "test@example.com" "password123" w) in
  let w0 := fst (signOut env true w) in
  snd (refreshPrivileges env w1) = Returned tt
  ∧ user (auth (fst (refreshPrivileges env w1))) = user (auth w1)
  ∧ privileges (auth w1) = Some fullPrivileges
  ∧ privileges (auth (fst (refreshPrivileges env w1)))
    = match privilege_query env "test-user-id-12345" with
      | Threw _ => None
      | Returned r =>
          match error r with
          | Some _ => Some fullPrivileges
          | None => data r
          end
      end
  ∧ refreshPrivileges env w0 = (w0, Returned tt).
Proof.
  rewrite signIn_designated, signOut_test_mode.
  destruct (storage_setItem env (localStorage w) "test_auth"
              (signed_in_item env w)) as [e0|];
    cbn [fst];
    unfold refreshPrivileges, after_signIn, signed_in_with, signed_in_user,
      after_signOut, mock_user; run_eff; cbn [id];
    destruct (privilege_query env "test-user-id-12345") as [[d [e|]]|e];
    repeat split.
Qed.

(** X7: a privilege lookup is not cancelled by a sign-out.  In delegated
    mode, when the session arrives, then the sign-out is reported, and
    only then the lookup is answered, nobody is signed in and yet the
    privilege set is what the lookup gives: the default record after a
    query error, the row after a result. *)
Theorem lookup_answer_after_signOut (env : Env)
    (stored : gmap string StoredText) (s : Session) :
  let w := run env false
             [GetSessionResolved (Some s); AuthStateChanged None; LookupAnswered]
             (mounted env false stored) in
  user (auth w) = None ∧ session (auth w) = None
  ∧ loading (auth w) = false ∧ in_flight w = []
  ∧ privileges (auth w)
    = looked_up (privilege_query env (id (session_user s))).
Proof.
  unfold run. cbn [fold_left]. rewrite mounted_delegated.
  destruct (step_with_session env (initial_world stored) s) as [-> _].
  rewrite step_signed_out.
  rewrite (step_lookup env false _ (id (session_user s)) []) by reflexivity.
  cbn. repeat split.
Qed.

(** X8: when a second identity signs in while the lookup for the first is
    still in flight, the first answer is written under the second user:
    until the second answer arrives the second user is shown with the
    privilege set looked up for the first. *)
Theorem lookup_answer_for_previous_user (env : Env)
    (stored : gmap string StoredText) (s1 s2 : Session) :
  let w := run env false
             [AuthStateChanged (Some s1); AuthStateChanged (Some s2);
              LookupAnswered]
             (mounted env false stored) in
  user (auth w) = Some (session_user s2)
  ∧ in_flight w = [id (session_user s2)]
  ∧ privileges (auth w)
    = looked_up (privilege_query env (id (session_user s1))).
Proof.
  unfold run. cbn [fold_left]. rewrite mounted_delegated.
  destruct (step_with_session env (initial_world stored) s1) as [_ ->].
  destruct (step_with_session env (with_session s1 (initial_world stored)) s2)
    as [_ ->].
  rewrite (step_lookup env false _ (id (session_user s1)) [id (session_user s2)])
    by reflexivity.
  cbn. repeat split.
Qed.

End ProviderMore.

(** ** The sign-out button, the landing page and the login page *)

Section NavigationMore.
Import Auth Provider ProviderEvents Sidebar Inputs.

(** X9: [handleSignOut] never throws.  In test mode it always signs out
    and pushes the login route once.  In delegated mode it pushes the
    login route exactly when the remote sign-out reports no error;
    otherwise it pushes nothing, logs one line, and leaves user, session,
    privileges and storage as they were. *)
Theorem handleSignOut_outcomes (env : Env) (w : World) :
  SidebarActions.handleSignOut env true w
  = (fst (signOut env true w), Returned ["/login"])
  ∧ user (auth (fst (SidebarActions.handleSignOut env true w))) = None
  ∧ SidebarActions.handleSignOut env false w
    = match auth_signOut env with
      | None => (w, Returned ["/login"])
      | Some _ =>
          ({| auth := auth w; localStorage := localStorage w;
              console := (console w ++ ["Sign out error:"])%list;
              ticks := ticks w; in_flight := in_flight w |},
           Returned [])
      end.
Proof.
  unfold SidebarActions.handleSignOut. run_eff.
  repeat split. by destruct (auth_signOut env).
Qed.

(** The hrefs of the rendered links are some of the hrefs of the items, in
    the order of the items. *)
Lemma nav_sublist (pathname : string) (privs : option UserPrivileges)
    (items : list NavItem) :
  link_href <$> omap (render_item pathname privs) items
  `sublist_of` href <$> items.
Proof.
  induction items as [|it items IH]; [constructor|].
  rewrite fmap_cons. cbn [omap list_omap]. unfold render_item at 1.
  destruct (negb _); cbn; by constructor.
Qed.

(** X10: for every path and every privilege set, the rendered links are
    entries of [navItems] in their order, and the Dashboard link, which
    has no privilege key, is always the first of them.  With a null
    privilege set or the full record all six entries are rendered; with
    an empty record only the Dashboard link is. *)
Theorem nav_entries (pathname : string) (privs : option UserPrivileges) :
  link_href <$> nav pathname privs `sublist_of` href <$> navItems
  ∧ head (link_href <$> nav pathname privs) = Some "/dashboard"
  ∧ link_href <$> nav pathname None = href <$> navItems
  ∧ link_href <$> nav pathname (Some fullPrivileges) = href <$> navItems
  ∧ link_href <$> nav pathname (Some ∅) = ["/dashboard"]
  ∧ link_name <$> nav pathname None
    = ["Dashboard"; "Add Expense"; "Add Income"; "Reports & Analytics";
       "Upload Bills"; "Download Reports"].
Proof.
  split; [apply nav_sublist|].
  split; [|repeat split].
  unfold nav, navItems. cbn [omap list_omap]. unfold render_item at 1.
  replace (hasPrivilege privs (key_string <$> privilegeKey
             {| name := "Dashboard"; href := "/dashboard"; privilegeKey := None |}))
    with true by reflexivity.
  reflexivity.
Qed.

(** X11: the landing page and the guard read the same context and never
    contradict each other: the landing page pushes nothing while loading,
    the dashboard route exactly when the guard would render the protected
    content, and the login route exactly when the guard itself pushes the
    login route. *)
Theorem home_and_guard_agree {U : Type} (p : Guard.Props (U:=U)) :
  HomePage.effect p
  = match Guard.render p with
    | Guard.Placeholder => []
    | Guard.Nothing => ["/login"]
    | Guard.Children => ["/dashboard"]
    end
  ∧ Guard.effect p = List.filter (String.eqb "/login") (HomePage.effect p)
  ∧ (length (HomePage.effect p) ≤ 1)%nat.
Proof.
  destruct p as [[| |u] [|] r]; cbn; repeat split; lia.
Qed.


(** X13: in test mode the login form accepts exactly the designated pair:
    in login mode a submission with any other email or password pushes
    nothing, shows the fixed text and leaves the provider as it was.  A
    submission with the designated pair, and every submission in sign-up
    mode, signs in the mock identity with the full privilege set; it
    navigates to the dashboard when local storage accepts the write of
    the test item, and when the write is refused it does not navigate,
    shows the storage error's message (or the fallback text for an empty
    message) and leaves local storage as it was.  In every case the
    form's loading flag ends false. *)
Theorem login_submit_test_mode (env : Env) (p : LoginPage.Page) (w : World) :
  let '(p', w', pushes) := LoginPage.handleSubmit env true p w in
  LoginPage.loading p' = false
  ∧ if LoginPage.isLogin p
       && negb (String.eqb (LoginPage.email p) "test@example.com"
                && String.eqb (LoginPage.password p) "password123")
    then pushes = [] ∧ w' = w
         ∧ LoginPage.error p'
           = "Invalid test credentials. Use test@example.com / password123"
    else id <$> user (auth w') = Some "test-user-id-12345"
         ∧ privileges (auth w') = Some fullPrivileges
         ∧ match storage_setItem env (localStorage w) "test_auth"
                   (JsonRecord (Some (mock_user (clock env (ticks w))))
                      (Some (mock_session (clock env (S (ticks w)))
                               (clock env (S (S (ticks w))))))) with
           | None =>
               pushes = ["/dashboard"] ∧ LoginPage.error p' = ""
               ∧ localStorage w' !! "test_auth"
                 = Some (JsonRecord (Some (mock_user (clock env (ticks w))))
                           (Some (mock_session (clock env (S (ticks w)))
                                    (clock env (S (S (ticks w)))))))
           | Some e =>
               pushes = []
               ∧ LoginPage.error p'
                 = (if empty_string (message e) then "An error occurred"
                    else message e)
               ∧ localStorage w' = localStorage w
           end.
Proof.
  assert (Hgo : ∀ call : Eff unit,
    call w = signIn env true "test@example.com" "password123" w →
    let '(p', w', pushes) :=
      match call w with
      | (w', Returned _) =>
          (LoginPage.setLoading false
             (LoginPage.setLoading true (LoginPage.setError "" p)),
           w', ["/dashboard"])
      | (w', Threw err) =>
          (LoginPage.setLoading false
             (LoginPage.setError
                (AddExpense.message_or err "An error occurred")
                (LoginPage.setLoading true (LoginPage.setError "" p))),
           w', [])
      end in
    LoginPage.loading p' = false
    ∧ id <$> user (auth w') = Some "test-user-id-12345"
    ∧ privileges (auth w') = Some fullPrivileges
    ∧ match storage_setItem env (localStorage w) "test_auth"
              (signed_in_item env w) with
      | None =>
          pushes = ["/dashboard"] ∧ LoginPage.error p' = ""
          ∧ localStorage w' !! "test_auth" = Some (signed_in_item env w)
      | Some e =>
          pushes = []
          ∧ LoginPage.error p'
            = (if empty_string (message e) then "An error occurred"
               else message e)
          ∧ localStorage w' = localStorage w
      end).
  { intros call ->. rewrite signIn_designated.
    destruct (storage_setItem env (localStorage w) "test_auth"
                (signed_in_item env w)) as [e|].
    - repeat split.
    - repeat split. unfold after_signIn, signed_in_with.
      cbn [localStorage]. apply lookup_insert_eq. }
  unfold LoginPage.handleSubmit.
  destruct (LoginPage.isLogin p); cbn [andb].
  - destruct (String.eqb (LoginPage.email p) "test@example.com"
              && String.eqb (LoginPage.password p) "password123") eqn:Hc;
      cbn [negb].
    + apply andb_true_iff in Hc as [He Hp].
      apply String.eqb_eq in He, Hp. rewrite He, Hp.
      apply (Hgo (signIn env true "test@example.com" "password123")).
      reflexivity.
    + unfold signIn.
      change TEST_USER_email with "test@example.com".
      change TEST_USER_password with "password123".
      rewrite Hc. run_eff. repeat split.
  - apply (Hgo (signUp env true (LoginPage.email p) (LoginPage.password p))).
    reflexivity.
Qed.

(** X14: from page load to protected content.  In test mode, whatever
    local storage holds at load time, as long as it accepts the write of
    the test item, a login with the designated pair navigates to the
    dashboard and signs in a user object with which a guard that mounts
    afterwards renders the children without any redirect; the sidebar
    renders all six entries, and the sign-in is still in force after a
    reload. *)
Theorem login_opens_dashboard (env : Env) (stored : gmap string StoredText)
    (pathname : string) (r : nat) (same : User → User → bool) :
  (∀ st v, storage_setItem env st "test_auth" v = None) →
  let p := {| LoginPage.isLogin := true; LoginPage.email := "test@example.com";
              LoginPage.password := "password123";
              LoginPage.loading := false; LoginPage.error := "" |} in
  let '(_, w', pushes) :=
    LoginPage.handleSubmit env true p (mounted env true stored) in
  pushes = ["/dashboard"]
  ∧ (∃ u, user (auth w') = Some u
          ∧ id u = "test-user-id-12345"
          ∧ Guard.commit same None
              {| Guard.user := Guard.Object u;
                 Guard.loading := loading (auth w'); Guard.router := r |}
            = (Guard.Children, []))
  ∧ link_href <$> nav pathname (privileges (auth w')) = href <$> navItems
  ∧ user (auth (mounted env true (localStorage w'))) = user (auth w').
Proof.
  intros Hacc.
  unfold LoginPage.handleSubmit.
  cbn [LoginPage.isLogin LoginPage.email LoginPage.password].
  rewrite signIn_designated, Hacc.
  split; [reflexivity|].
  assert (Hl : loading (auth (mounted env true stored)) = false).
  { destruct (mounted_settled env true stored) as [H|[H _]]; [exact H|discriminate]. }
  split.
  { eexists. split; [reflexivity|]. split; [reflexivity|].
    unfold after_signIn, signed_in_with, Guard.commit, Guard.render, Guard.effect.
    cbn [auth user loading fst snd Guard.user Guard.loading Guard.falsy].
    rewrite Hl. reflexivity. }
  split; [reflexivity|].
  unfold mounted at 1. unfold init.
  rewrite (init_test_mode_record _
             (Some (signed_in_user env (mounted env true stored)))
             (Some (signed_in_session env (mounted env true stored))))
    by apply lookup_insert_eq.
  reflexivity.
Qed.

Lemma login_opens_dashboard_witness :
  (∀ st v, storage_setItem Inputs.offline_env st "test_auth" v = None)
  ∧ let '(_, w', pushes) :=
      LoginPage.handleSubmit Inputs.offline_env true
        {| LoginPage.isLogin := true; LoginPage.email := "test@example.com";
           LoginPage.password := "password123";
           LoginPage.loading := false; LoginPage.error := "" |}
        (mounted Inputs.offline_env true ∅) in
    pushes = ["/dashboard"]
    ∧ is_Some (user (auth (mounted Inputs.offline_env true (localStorage w')))).
Proof.
  split; [reflexivity|].
  pose proof (login_opens_dashboard Inputs.offline_env ∅ "/dashboard" 0%nat
                (λ _ _, true) (λ _ _, eq_refl)) as H.
  cbv zeta in H.
  destruct (LoginPage.handleSubmit _ _ _ _) as [[p' w'] pushes].
  destruct H as (Hp & (u & Hu & _) & _ & Hm).
  split; [exact Hp|]. rewrite Hm, Hu. by eexists.
Defined.


End NavigationMore.

(** ** Submitting a transaction *)

Section SubmitMore.
Import Forms.



(** X16: the pages that write to the Transaction table carry the
    description in the form but never send it: two submissions that
    differ only in the description perform the same actions, on the
    expense page and on the income page, and end in pages that differ
    only in the description. *)
Theorem description_is_not_sent (user : option Auth.User)
    (answer : Outcome (option JsError)) (p : AddExpense.Page) (d : string) :
  snd (AddExpense.handleSubmit user answer (with_description d p))
  = snd (AddExpense.handleSubmit user answer p)
  ∧ fst (AddExpense.handleSubmit user answer (with_description d p))
    = with_description d (fst (AddExpense.handleSubmit user answer p))
  ∧ snd (AddIncome.handleSubmit user answer (with_description d p))
    = snd (AddIncome.handleSubmit user answer p)
  ∧ fst (AddIncome.handleSubmit user answer (with_description d p))
    = with_description d (fst (AddIncome.handleSubmit user answer p)).
Proof.
  unfold AddExpense.handleSubmit, AddIncome.handleSubmit, with_description.
  cbn [AddExpense.personId AddExpense.formData AddExpense.amount
       AddExpense.typeId AddExpense.date].
  unfold AddExpense.required_missing.
  cbn [AddExpense.amount AddExpense.typeId AddExpense.date].
  destruct (absent user || AddExpense.no_person (AddExpense.personId p));
    [by repeat split|].
  destruct (empty_string _ || empty_string _ || empty_string _);
    [by repeat split|].
  destruct answer as [[e|]|e]; by repeat split.
Qed.

(** X17: the income page and the expense page send the same row for the
    same form: table, type, person, amount and date.  Nothing in the row
    says which page it came from; they differ only in the wording of
    their messages, and succeed or fail together. *)
Theorem income_and_expense_send_the_same_row (user : option Auth.User)
    (answer : Outcome (option JsError)) (p : AddExpense.Page) :
  let i := AddIncome.handleSubmit user answer p in
  let x := AddExpense.handleSubmit user answer p in
  List.filter is_network_call (snd i) = List.filter is_network_call (snd x)
  ∧ List.filter is_push (snd i) = List.filter is_push (snd x)
  ∧ AddExpense.success (fst i) = AddExpense.success (fst x)
  ∧ AddExpense.loading (fst i) = AddExpense.loading (fst x)
  ∧ AddExpense.formData (fst i) = AddExpense.formData (fst x)
  ∧ empty_string (AddExpense.error (fst i))
    = empty_string (AddExpense.error (fst x)).
Proof.
  unfold AddExpense.handleSubmit, AddIncome.handleSubmit.
  destruct (absent user || AddExpense.no_person (AddExpense.personId p));
    [by repeat split|].
  destruct (AddExpense.required_missing (AddExpense.formData p));
    [by repeat split|].
  destruct answer as [[e|]|e]; cbn; repeat split;
    unfold AddExpense.message_or; by destruct (message e).
Qed.

End SubmitMore.

(** ** Finding or creating the Person row *)

Section PersonMore.
Import PersonLookup.

Variable mint : nat → string.

Lemma name_for_email (e : string) : e ≠ "" → name_for (Some e) = e.
Proof. intros He. unfold name_for. by destruct e. Qed.

Lemma named_snoc (v : string) (s : Store) (r : PersonRow) (n : nat) :
  Name r = v →
  named v {| persons := persons s ++ [r]; minted := n |}
  = (named v s ++ [r])%list.
Proof.
  intros Hr. unfold named. cbn. rewrite filter_app. f_equal.
  rewrite filter_cons, decide_True by done. reflexivity.
Qed.

(** What one visit does, by the number of rows that carry the email. *)
Lemma visit_cases (s : Store) (u : Auth.User) (e : string)
    (personId : option string) :
  Auth.email u = Some e → e ≠ "" →
  visit mint s u e personId
  = match named e s with
    | [r] => (s, Some (PersonID r))
    | _ => ({| persons := persons s ++ [{| PersonID := mint (minted s); Name := e |}];
               minted := S (minted s) |},
            Some (mint (minted s)))
    end.
Proof.
  intros Hu He. unfold visit, fetchOrCreatePerson, select_by_name, single,
    insert_person.
  rewrite Hu, (name_for_email e He).
  destruct (named e s) as [|r [|r' l]]; reflexivity.
Qed.

(** X18: find-or-create works when visits do not overlap.  For a user
    whose email is on no row, the first visit inserts exactly one row
    with that email and keeps its id; every later visit finds that row,
    inserts nothing and ends with the same id; and when exactly one row
    carries the email to begin with, nothing is ever inserted. *)
Theorem find_or_create_in_sequence (s : Store) (u : Auth.User) (e : string)
    (p1 p2 : option string) :
  Auth.email u = Some e → e ≠ "" → named e s = [] →
  let s1 := fst (visit mint s u e p1) in
  named e s1 = [{| PersonID := mint (minted s); Name := e |}]
  ∧ persons s1
    = (persons s ++ [{| PersonID := mint (minted s); Name := e |}])%list
  ∧ snd (visit mint s u e p1) = Some (mint (minted s))
  ∧ visit mint s1 u e p2 = (s1, Some (mint (minted s))).
Proof.
  intros Hu He Hn s1. subst s1.
  rewrite (visit_cases s u e p1 Hu He), Hn. cbn [fst snd].
  assert (Hs : named e {| persons := persons s ++ [{| PersonID := mint (minted s); Name := e |}];
                          minted := S (minted s) |}
               = [{| PersonID := mint (minted s); Name := e |}]).
  { rewrite named_snoc by done. by rewrite Hn. }
  repeat split; [exact Hs|].
  rewrite (visit_cases _ u e p2 Hu He), Hs. reflexivity.
Qed.

(** X19: find-or-create is not atomic.  When two pages of a user whose
    email is on no row both get the answer of their select before either
    insert arrives, both insert: the table ends with two rows for the
    email, each page keeps the id of its own row, and a select for the
    single row of that email now fails. *)
Theorem find_or_create_race (s : Store) (u : Auth.User) (e : string) :
  Auth.email u = Some e → e ≠ "" → named e s = [] →
  let '(s2, pid1, pid2) := race mint s u e in
  named e s2 = [{| PersonID := mint (minted s); Name := e |};
                {| PersonID := mint (S (minted s)); Name := e |}]
  ∧ pid1 = Some (mint (minted s))
  ∧ pid2 = Some (mint (S (minted s)))
  ∧ data (select_by_name s2 e) = None
  ∧ is_Some (error (select_by_name s2 e)).
Proof.
  intros Hu He Hn. unfold race, fetchOrCreatePerson, select_by_name.
  rewrite Hn. unfold single, insert_person.
  rewrite Hu, (name_for_email e He).
  cbn [error data absent negb orb fst snd existsb is_network_call minted].
  rewrite !named_snoc by done. rewrite Hn. cbn. repeat split. eauto.
Qed.

Lemma visits_grow (n : nat) (s : Store) (u : Auth.User) (e : string) :
  Auth.email u = Some e → e ≠ "" → (2 ≤ length (named e s))%nat →
  length (named e (visits mint n s u e)) = (length (named e s) + n)%nat.
Proof.
  intros Hu He. revert s. induction n as [|n IH]; intros s Hlen; [cbn; lia|].
  cbn [visits]. rewrite (visit_cases s u e None Hu He).
  destruct (named e s) as [|r [|r' l]] eqn:Hn; cbn in Hlen; try lia.
  cbn [fst]. rewrite IH.
  - rewrite named_snoc by done. rewrite Hn, length_app. cbn. lia.
  - rewrite named_snoc by done. rewrite Hn, length_app. cbn. lia.
Qed.

(** X20: duplicates breed.  Once two or more rows carry a user's email,
    the select for a single row fails on every visit, so every visit
    inserts one more row: after n further visits there are n more rows
    for that email, and the dashboard, whose Person lookup is the same
    select, finds no Person and leaves its statistics as they were. *)
Theorem duplicates_grow (n : nat) (s : Store) (u : Auth.User) (e : string)
    {num : Type} (zero : num) (add sub : num → num → num)
    (answer : string → Outcome (Dashboard.QueryResult (num:=num)))
    (start : Z) (page : Dashboard.Page (num:=num)) :
  Auth.email u = Some e → e ≠ "" → (2 ≤ length (named e s))%nat →
  let s' := visits mint n s u e in
  length (named e s') = (length (named e s) + n)%nat
  ∧ data (select_by_name s' e) = None
  ∧ Dashboard.fetchTransactions zero add sub
      (Returned (PersonID <$> data (select_by_name s' e))) answer start page
    = Dashboard.finish page.
Proof.
  intros Hu He Hlen s'.
  pose proof (visits_grow n s u e Hu He Hlen) as Hg. fold s' in Hg.
  split; [exact Hg|].
  assert (Hd : data (select_by_name s' e) = None).
  { unfold select_by_name, single.
    destruct (named e s') as [|r [|r' l]] eqn:Hn; cbn in Hg; [done|lia|done]. }
  split; [exact Hd|]. by rewrite Hd.
Qed.

End PersonMore.

Lemma find_or_create_in_sequence_witness :
  let s := Sums.empty_store in
  let s1 := fst (PersonLookup.visit Sums.mint_letters s Inputs.remote_user
                   "ann@example.org" None) in
  PersonLookup.named "ann@example.org" s1
  = [{| PersonLookup.PersonID := Sums.mint_letters (PersonLookup.minted s);
        PersonLookup.Name := "ann@example.org" |}]
  ∧ PersonLookup.persons s1
    = (PersonLookup.persons s
       ++ [{| PersonLookup.PersonID := Sums.mint_letters (PersonLookup.minted s);
              PersonLookup.Name := "ann@example.org" |}])%list
  ∧ snd (PersonLookup.visit Sums.mint_letters s Inputs.remote_user
           "ann@example.org" None)
    = Some (Sums.mint_letters (PersonLookup.minted s))
  ∧ PersonLookup.visit Sums.mint_letters s1 Inputs.remote_user
      "ann@example.org" (Some "stale")
    = (s1, Some (Sums.mint_letters (PersonLookup.minted s))).
Proof.
  apply (find_or_create_in_sequence Sums.mint_letters Sums.empty_store
           Inputs.remote_user "ann@example.org" None (Some "stale"));
    [reflexivity|discriminate|reflexivity].
Defined.

Lemma find_or_create_race_witness :
  let s := Sums.empty_store in
  let '(s2, pid1, pid2) :=
    PersonLookup.race Sums.mint_letters s Inputs.remote_user "ann@example.org" in
  PersonLookup.named "ann@example.org" s2
  = [{| PersonLookup.PersonID := Sums.mint_letters (PersonLookup.minted s);
        PersonLookup.Name := "ann@example.org" |};
     {| PersonLookup.PersonID := Sums.mint_letters (S (PersonLookup.minted s));
        PersonLookup.Name := "ann@example.org" |}]
  ∧ pid1 = Some (Sums.mint_letters (PersonLookup.minted s))
  ∧ pid2 = Some (Sums.mint_letters (S (PersonLookup.minted s)))
  ∧ PersonLookup.data (PersonLookup.select_by_name s2 "ann@example.org") = None
  ∧ is_Some (PersonLookup.error (PersonLookup.select_by_name s2 "ann@example.org")).
Proof.
  apply (find_or_create_race Sums.mint_letters Sums.empty_store
           Inputs.remote_user "ann@example.org");
    [reflexivity|discriminate|reflexivity].
Defined.

Lemma duplicates_grow_witness :
  let s' := PersonLookup.visits Sums.mint_letters 3 Sums.doubled_store
              Inputs.remote_user "ann@example.org" in
  length (PersonLookup.named "ann@example.org" s')
  = (length (PersonLookup.named "ann@example.org" Sums.doubled_store) + 3)%nat
  ∧ PersonLookup.data (PersonLookup.select_by_name s' "ann@example.org") = None
  ∧ Dashboard.fetchTransactions 0 Z.add Z.sub
      (Returned (PersonLookup.PersonID
                   <$> PersonLookup.data
                         (PersonLookup.select_by_name s' "ann@example.org")))
      (Dashboard.answer_from Inputs.eleven_incomes) 0 (Dashboard.initial_page 0)
    = Dashboard.finish (Dashboard.initial_page 0).
Proof.
  apply (duplicates_grow Sums.mint_letters 3 Sums.doubled_store
           Inputs.remote_user "ann@example.org" 0 Z.add Z.sub
           (Dashboard.answer_from Inputs.eleven_incomes) 0
           (Dashboard.initial_page 0));
    [reflexivity|discriminate|vm_compute; lia].
Defined.

(** ** The dashboard: failures, isolation, short histories *)

Section DashboardMore.
Import Dashboard.

Context {num : Type} (zero : num) (add sub : num → num → num).


(** X22: the select keeps persons apart: every transaction it returns is
    the transaction of a table row of the person asked for, rows of other
    persons can be removed from the table without changing the result,
    and a table that holds only rows of other persons gives the empty
    list. *)
Theorem select_recent_isolation (table : list (Row (num:=num))) (pid : string) :
  Forall (λ t, ∃ r, r ∈ table ∧ PersonID r = pid ∧ row r = t)
    (select_recent table pid)
  ∧ select_recent (filter (λ r, PersonID r = pid) table) pid
    = select_recent table pid
  ∧ select_recent (filter (λ r, PersonID r ≠ pid) table) pid = [].
Proof.
  split; [|split].
  - apply Forall_forall. intros t Ht. unfold select_recent in Ht.
    apply (subseteq_take 10) in Ht.
    rewrite merge_sort_Permutation in Ht.
    apply list_elem_of_fmap in Ht as (r & -> & Hr).
    apply list_elem_of_filter in Hr as [Hp Hr]. by exists r.
  - unfold select_recent. by rewrite list_filter_filter_l.
  - unfold select_recent.
    replace (filter (λ r, PersonID r = pid) (filter (λ r, PersonID r ≠ pid) table))
      with (@nil (Row (num:=num))); [reflexivity|].
    induction table as [|r table IH]; [reflexivity|].
    rewrite (filter_cons (λ r, PersonID r ≠ pid)). case_decide as Hne; [|exact IH].
    rewrite filter_cons, decide_False by done. exact IH.
Qed.

(** X23: a person with at most ten transactions is summarised in full: the
    window is a rearrangement of all of that person's rows, so no row is
    left out of the list. *)
Theorem short_history_is_complete (table : list (Row (num:=num))) (pid : string) :
  (length (filter (λ r, PersonID r = pid) table) ≤ 10)%nat →
  select_recent table pid ≡ₚ row <$> filter (λ r, PersonID r = pid) table
  ∧ length (select_recent table pid)
    = length (filter (λ r, PersonID r = pid) table).
Proof.
  intros Hlen. unfold select_recent.
  assert (Hp : merge_sort newer_first (row <$> filter (λ r, PersonID r = pid) table)
               ≡ₚ row <$> filter (λ r, PersonID r = pid) table)
    by apply merge_sort_Permutation.
  rewrite take_ge.
  - split; [exact Hp|]. by rewrite Hp, length_fmap.
  - rewrite Hp, length_fmap. exact Hlen.
Qed.

End DashboardMore.

Lemma short_history_is_complete_witness :
  Dashboard.select_recent Sums.three_rows "42"
  ≡ₚ Dashboard.row <$> filter (λ r, Dashboard.PersonID r = "42") Sums.three_rows
  ∧ length (Dashboard.select_recent Sums.three_rows "42")
    = length (filter (λ r, Dashboard.PersonID r = "42") Sums.three_rows).
Proof.
  apply (short_history_is_complete Sums.three_rows "42"). vm_compute. lia.
Defined.

(** ** The dashboard: what one row contributes *)

Section DashboardRows.
Import Dashboard.

Context {num : Type} (zero : num) (add sub : num → num → num).

Lemma total_app (d : string) (l1 l2 : list (Transaction (num:=num))) :
  total zero add d (l1 ++ l2)%list
  = fold_left (λ sum t, add sum (Amount t))
      (List.filter (has_direction d) l2) (total zero add d l1).
Proof. unfold total. by rewrite List.filter_app, fold_left_app. Qed.

Lemma thisMonthNet_app (start : Z) (l1 l2 : list (Transaction (num:=num))) :
  thisMonthNet zero add sub start (l1 ++ l2)%list
  = fold_left
      (λ sum t, if has_direction "INCOME" t then add sum (Amount t)
                else sub sum (Amount t))
      (List.filter (λ t, (start <=? TransactionDate t)%Z) l2)
      (thisMonthNet zero add sub start l1).
Proof. unfold thisMonthNet. by rewrite List.filter_app, fold_left_app. Qed.

(** X24: what one row contributes to the statistics, for every
    interpretation of the number operations (no law of arithmetic is
    used).  A last row whose Type's Category has the Type INCOME adds its
    amount to total income and leaves total expenses alone, and the other
    way round for EXPENSE.  A row without a joined Type, or whose Type
    has no Category, anywhere in the list counts in neither total, so the
    totals and the net balance are those of the list without it; yet when
    it is dated at or after the month start its amount is subtracted from
    the month's running figure at its position. *)
Theorem row_contributions (start : Z) (l l1 l2 : list (Transaction (num:=num)))
    (i n cn : string) (a : num) (d : Z) :
  let counts_as (k : string) (t : Transaction (num:=num)) : bool :=
    match Type_ t with
    | Some {| type_Category := Some {| category_Type := s |} |} =>
        String.eqb s k
    | _ => false
    end in
  let typed (k : string) :=
    {| TransactionID := i; Amount := a; TransactionDate := d;
       Type_ := Some {| type_Name := n;
                        type_Category :=
                          Some {| category_Name := cn; category_Type := k |} |} |} in
  let untyped (without_type : bool) :=
    {| TransactionID := i; Amount := a; TransactionDate := d;
       Type_ := if without_type then None
                else Some {| type_Name := n; type_Category := None |} |} in
  let stats_of := compute_stats zero add sub start in
  (totalIncome (stats_of (l ++ [typed "INCOME"])%list)
     = add (totalIncome (stats_of l)) a
   ∧ totalExpenses (stats_of (l ++ [typed "INCOME"])%list)
     = totalExpenses (stats_of l)
   ∧ totalExpenses (stats_of (l ++ [typed "EXPENSE"])%list)
     = add (totalExpenses (stats_of l)) a
   ∧ totalIncome (stats_of (l ++ [typed "EXPENSE"])%list)
     = totalIncome (stats_of l))
  ∧ ∀ without_type : bool,
      let s0 := stats_of (l1 ++ l2)%list in
      let s1 := stats_of (l1 ++ untyped without_type :: l2)%list in
      totalIncome s1 = totalIncome s0
      ∧ totalExpenses s1 = totalExpenses s0
      ∧ netBalance s1 = netBalance s0
      ∧ thisMonth s1
        = if (start <=? d)%Z
          then fold_left
                 (λ sum t, if counts_as "INCOME" t then add sum (Amount t)
                           else sub sum (Amount t))
                 (List.filter (λ t, (start <=? TransactionDate t)%Z) l2)
                 (sub (thisMonth (stats_of l1)) a)
          else thisMonth s0.
Proof.
  intros counts_as typed untyped stats_of.
  assert (Hc : ∀ k t, has_direction k t = counts_as k t).
  { intros k t. rewrite has_direction_joined. subst counts_as. cbv beta.
    destruct (Type_ t) as [[m [[c1 c2]|]]|]; reflexivity. }
  split.
  { subst stats_of typed. unfold compute_stats.
    cbn [totalIncome totalExpenses]. rewrite !total_app. repeat split. }
  intros without_type s0 s1. subst s0 s1 stats_of. unfold compute_stats.
  cbn [totalIncome totalExpenses netBalance thisMonth].
  assert (Hu : ∀ k, has_direction k (untyped without_type) = false).
  { intros k. subst untyped. by destruct without_type. }
  assert (Ht : ∀ k, total zero add k (l1 ++ untyped without_type :: l2)%list
                    = total zero add k (l1 ++ l2)%list).
  { intros k. rewrite !total_app. cbn [List.filter]. by rewrite Hu. }
  rewrite !Ht. do 3 (split; [reflexivity|]).
  rewrite !thisMonthNet_app. cbn [List.filter].
  replace (TransactionDate (untyped without_type)) with d
    by (subst untyped; reflexivity).
  destruct (start <=? d)%Z; [|reflexivity].
  cbn [fold_left]. rewrite Hu.
  replace (Amount (untyped without_type)) with a
    by (subst untyped; reflexivity).
  apply fold_left_pointwise. intros x t. by rewrite Hc.
Qed.

End DashboardRows.

(** ** The bills page *)

Section BillsMore.
Import Bills BillsSpec.
Local Open Scope list_scope.

Lemma upload_loop_spec (user_id : string) (now : nat → Z)
    (answer : nat → Outcome (option JsError))
    (rest pre : list UploadedFile) (done : list Effect) :
  upload_loop user_id now answer (length pre) rest (pre ++ rest) done
  = ((pre ++ imap (λ k, settle answer (length pre + k)) rest)%list,
     (done ++ concat (imap (λ k, attempt_effects user_id now answer (length pre + k))
                        rest))%list).
Proof.
  revert pre done. induction rest as [|f rest IH]; intros pre done.
  { cbn. by rewrite !app_nil_r. }
  assert (Hext : ∀ {B} (g : nat → UploadedFile → B) (x : UploadedFile),
            imap (λ k, g (length (pre ++ [x]) + k)%nat) rest
            = imap ((λ k, g (length pre + k)%nat) ∘ S) rest).
  { intros B g x. apply imap_ext. intros k y _. cbn.
    rewrite length_app. cbn. f_equal. lia. }
  rewrite !imap_cons, Nat.add_0_r. cbn [upload_loop concat].
  unfold settle at 1, attempt_effects at 1.
  destruct (uploaded f) eqn:Hup.
  - replace (pre ++ f :: rest) with ((pre ++ [f]) ++ rest)
      by (by rewrite <- app_assoc).
    replace (S (length pre)) with (length (pre ++ [f]))
      by (rewrite length_app; cbn; lia).
    rewrite IH, !Hext. by rewrite <- app_assoc.
  - rewrite (alter_app_r_alt start_upload pre (f :: rest) (length pre)) by lia.
    rewrite Nat.sub_diag. cbn [alter list_alter].
    destruct (failure (answer (length pre))) as [e|].
    + rewrite (alter_app_r_alt _ pre (_ :: rest) (length pre)) by lia.
      rewrite Nat.sub_diag. cbn [alter list_alter].
      set (x := mark_failed _ _).
      replace (pre ++ x :: rest) with ((pre ++ [x]) ++ rest)
        by (by rewrite <- app_assoc).
      replace (S (length pre)) with (length (pre ++ [x]))
        by (rewrite length_app; cbn; lia).
      rewrite IH, !Hext. rewrite <- !app_assoc. reflexivity.
    + rewrite (alter_app_r_alt _ pre (_ :: rest) (length pre)) by lia.
      rewrite Nat.sub_diag. cbn [alter list_alter].
      set (x := mark_uploaded _).
      replace (pre ++ x :: rest) with ((pre ++ [x]) ++ rest)
        by (by rewrite <- app_assoc).
      replace (S (length pre)) with (length (pre ++ [x]))
        by (rewrite length_app; cbn; lia).
      rewrite IH, !Hext. rewrite <- !app_assoc. reflexivity.
Qed.

Lemma settle_keeps (answer : nat → Outcome (option JsError))
    (l : list UploadedFile) (n : nat) :
  Forall2 (λ f g, if uploaded f then g = f
                  else Bills.uploading g = false ∧ file g = file f
                       ∧ preview g = preview f)
    l (imap (λ k, settle answer (n + k)) l).
Proof.
  revert n. induction l as [|f l IH]; intros n; [constructor|].
  rewrite imap_cons. constructor.
  - unfold settle. destruct (uploaded f); [done|].
    by destruct (failure (answer (n + 0)%nat)).
  - specialize (IH (S n)).
    replace (imap ((λ k, settle answer (n + k)) ∘ S) l)
      with (imap (λ k, settle answer (S n + k)) l); [exact IH|].
    apply imap_ext. intros k x _. cbn. f_equal. lia.
Qed.

Lemma uploadFiles_files (u : Auth.User) (now : nat → Z)
    (answer : nat → Outcome (option JsError)) (p : Page) :
  files (fst (uploadFiles (Some u) now answer p)) = imap (settle answer) (files p).
Proof.
  unfold uploadFiles.
  pose proof (upload_loop_spec (Auth.id u) now answer (files p) [] []) as Hl.
  cbn [length app Nat.add] in Hl.
  destruct (files p) as [|f l] eqn:Hfl.
  - cbn [length Nat.eqb fst]. by rewrite Hfl.
  - cbn [length Nat.eqb fst files]. by rewrite Hl.
Qed.

Lemma upload_loop_undisturbed (blob : nat → string) (user_id : string)
    (now : nat → Z) (answer : nat → Outcome (option JsError))
    (rest pre : list UploadedFile) (done : list Effect) (b : bool) (n : nat) :
  upload_loop_during blob user_id now answer (λ _, []) (length pre) rest
    (Live {| files := pre ++ rest; page_uploading := b; urls_created := n |})
    done
  = (Live {| files := pre ++ imap (λ k, settle answer (length pre + k)) rest;
             page_uploading := b; urls_created := n |},
     done ++ concat (imap (λ k, attempt_effects user_id now answer (length pre + k))
                       rest)).
Proof.
  revert pre done. induction rest as [|f rest IH]; intros pre done.
  { cbn. by rewrite !app_nil_r. }
  assert (Hext : ∀ {B} (g : nat → UploadedFile → B) (x : UploadedFile),
            imap (λ k, g (length (pre ++ [x]) + k)%nat) rest
            = imap ((λ k, g (length pre + k)%nat) ∘ S) rest).
  { intros B g x. apply imap_ext. intros k y _. cbn.
    rewrite length_app. cbn. f_equal. lia. }
  assert (Hlt : ∀ x : UploadedFile,
            (length pre <? length (pre ++ x :: rest))%nat = true).
  { intros x. apply Nat.ltb_lt. rewrite length_app. cbn. lia. }
  rewrite !imap_cons, Nat.add_0_r. cbn [upload_loop_during concat].
  unfold settle at 1, attempt_effects at 1.
  destruct (uploaded f) eqn:Hup.
  - replace (pre ++ f :: rest) with ((pre ++ [f]) ++ rest)
      by (by rewrite <- app_assoc).
    replace (S (length pre)) with (length (pre ++ [f]))
      by (rewrite length_app; cbn; lia).
    rewrite IH, !Hext. by rewrite <- app_assoc.
  - cbn [user_events fst snd].
    assert (Hw : ∀ g : UploadedFile → UploadedFile,
              write g (length pre)
                (write start_upload (length pre)
                   (Live {| files := pre ++ f :: rest; page_uploading := b;
                            urls_created := n |}))
              = Live {| files := (pre ++ [g (start_upload f)]) ++ rest;
                        page_uploading := b; urls_created := n |}).
    { intros g. unfold write. cbn [files page_uploading urls_created].
      rewrite Hlt. cbn [files page_uploading urls_created].
      rewrite (alter_app_r_alt start_upload pre (f :: rest) (length pre)) by lia.
      rewrite Nat.sub_diag. cbn [alter list_alter]. rewrite Hlt.
      rewrite (alter_app_r_alt g pre (_ :: rest) (length pre)) by lia.
      rewrite Nat.sub_diag. cbn [alter list_alter].
      by rewrite <- app_assoc. }
    destruct (failure (answer (length pre))) as [e|]; rewrite Hw.
    + set (x := mark_failed _ _).
      replace (S (length pre)) with (length (pre ++ [x]))
        by (rewrite length_app; cbn; lia).
      rewrite IH, !Hext. rewrite <- !app_assoc. reflexivity.
    + set (x := mark_uploaded _).
      replace (S (length pre)) with (length (pre ++ [x]))
        by (rewrite length_app; cbn; lia).
      rewrite IH, !Hext. rewrite <- !app_assoc. reflexivity.
Qed.

Lemma user_events_send_nothing (blob : nat → string) (evs : list UserEvent)
    (s : PageState) :
  List.filter is_upload (snd (user_events blob evs s)) = [].
Proof.
  revert s. induction evs as [|ev evs IH]; intros s; [reflexivity|].
  cbn [user_events snd]. rewrite List.filter_app, IH, app_nil_r.
  destruct s as [p|e]; [|reflexivity].
  destruct ev as [index|accepted]; cbn [user_event]; [|reflexivity].
  destruct (removable p index); [|reflexivity].
  unfold removeFile. destruct (files p !! index) as [f|]; [|reflexivity].
  cbn [fst snd]. unfold revocations. by destruct (preview_url f).
Qed.

Lemma upload_loop_during_sends (blob : nat → string) (user_id : string)
    (now : nat → Z) (answer : nat → Outcome (option JsError))
    (during : nat → list UserEvent) (snapshot : list UploadedFile) (i : nat)
    (s : PageState) (done : list Effect) :
  List.filter is_upload
    (snd (upload_loop_during blob user_id now answer during i snapshot s done))
  = List.filter is_upload done
    ++ concat (imap (λ k f, if uploaded f then []
                            else [Upload (request user_id now (i + k) f)])
                 snapshot).
Proof.
  revert i s done. induction snapshot as [|f rest IH]; intros i s done.
  { cbn. by rewrite app_nil_r. }
  assert (Hext : imap ((λ k f, if uploaded f then []
                               else [Upload (request user_id now (i + k) f)]) ∘ S)
                   rest
                 = imap (λ k f, if uploaded f then []
                                else [Upload (request user_id now (S i + k) f)])
                     rest).
  { apply imap_ext. intros k y _. cbn. by rewrite Nat.add_succ_r. }
  rewrite imap_cons, Nat.add_0_r, Hext. cbn [upload_loop_during concat].
  destruct (uploaded f); [by rewrite IH|].
  destruct (failure (answer i)) as [e|]; rewrite IH, !List.filter_app,
    user_events_send_nothing; cbn; by rewrite <- ?app_assoc.
Qed.

(** X26: the upload loop, entry by entry.  When the user does nothing
    while the uploads are awaited, an entry already uploaded is left
    exactly as it is and is not sent again; every other entry is sent
    once, in list order, under the user's id; it ends uploaded when the
    upload is accepted and with an error text when it is not, and never
    stays marked as uploading.  Whatever the user does meanwhile (removing
    entries that show the X button, dropping files), the files sent are
    those of the list as it was when the handler started, each entry not
    yet uploaded once and in order.  So an entry removed while an earlier
    upload is awaited is still sent: with two pending entries, removing
    the second during the first upload revokes its preview, sends its
    file all the same, and the update for it falls past the end of the
    list, after which the page is lost.  Without a user nothing
    happens. *)
Theorem uploadFiles_per_entry (blob : nat → string) (u : Auth.User)
    (now : nat → Z) (answer : nat → Outcome (option JsError))
    (during : nat → list UserEvent) (p : Page)
    (a b : File) (pa pb ea eb : option string) (created : nat) :
  let r := uploadFiles (Some u) now answer p in
  (uploadFiles_during blob (Some u) now answer (λ _, []) p = (Live (fst r), snd r)
   ∧ files (fst r) = imap (settle answer) (files p)
   ∧ snd r = concat (imap (attempt_effects (Auth.id u) now answer) (files p))
   ∧ length (files (fst r)) = length (files p)
   ∧ page_uploading (fst r)
     = (if Nat.eqb (length (files p)) 0 then page_uploading p else false)
   ∧ Forall2 (λ f g, if uploaded f then g = f
                     else Bills.uploading g = false ∧ file g = file f
                          ∧ preview g = preview f)
       (files p) (files (fst r)))
  ∧ List.filter is_upload
      (snd (uploadFiles_during blob (Some u) now answer during p))
    = concat (imap (λ i f, if uploaded f then []
                           else [Upload {| path_user := Auth.id u;
                                           path_stamp := now i;
                                           path_ext := fileExt (file_name (file f));
                                           payload := file f |}])
                (files p))
  ∧ (let fa := {| file := a; preview := pa; uploading := false;
                  uploaded := false; error := ea |} in
     let fb := {| file := b; preview := pb; uploading := false;
                  uploaded := false; error := eb |} in
     let logged (i : nat) :=
       match answer i with
       | Returned None => []
       | _ => [LogError "Upload error:"]
       end in
     uploadFiles_during blob (Some u) now answer
       (λ i, if Nat.eqb i 0 then [ClickRemove 1] else [])
       {| files := [fa; fb]; page_uploading := false; urls_created := created |}
     = (Crashed (Error "TypeError"),
        [Upload {| path_user := Auth.id u; path_stamp := now 0%nat;
                   path_ext := fileExt (file_name a); payload := a |}]
        ++ match pb with
           | Some url => if empty_string url then [] else [Revoke url]
           | None => []
           end
        ++ logged 0%nat
        ++ [Upload {| path_user := Auth.id u; path_stamp := now 1%nat;
                      path_ext := fileExt (file_name b); payload := b |}]
        ++ logged 1%nat))
  ∧ uploadFiles_during blob None now answer during p = (Live p, [])
  ∧ uploadFiles None now answer p = (p, []).
Proof.
  intros r. split.
  { subst r. unfold uploadFiles, uploadFiles_during, setUploading.
    pose proof (upload_loop_spec (Auth.id u) now answer (files p) [] []) as Hl.
    pose proof (upload_loop_undisturbed blob (Auth.id u) now answer (files p) []
                  [] true (urls_created p)) as Hd.
    cbn [length app Nat.add] in Hl, Hd.
    destruct (files p) as [|f l] eqn:Hfl.
    - cbn [length Nat.eqb fst snd]. rewrite Hfl. cbn.
      destruct p as [fs pu uc]. cbn in Hfl. subst fs.
      repeat split. constructor.
    - cbn [length Nat.eqb fst snd files page_uploading]. rewrite Hl, Hd.
      cbn [fst snd files page_uploading urls_created].
      split; [reflexivity|].
      split; [reflexivity|]. split; [reflexivity|].
      split; [by rewrite length_imap|]. split; [reflexivity|].
      exact (settle_keeps answer (f :: l) 0). }
  split.
  { unfold uploadFiles_during.
    destruct (files p) as [|f l] eqn:Hfl; [reflexivity|].
    cbn [length Nat.eqb snd].
    exact (upload_loop_during_sends blob (Auth.id u) now answer during
             (f :: l) 0 _ []). }
  split; [|by split].
  unfold uploadFiles_during, setUploading, request.
  cbn -[fileExt].
  unfold revocations, preview_url. cbn -[fileExt].
  destruct pb as [url|]; [destruct (empty_string url)|];
    destruct (answer 0%nat) as [[e0|]|e0]; cbn -[fileExt];
    destruct (answer 1%nat) as [[e1|]|e1]; reflexivity.
Qed.

(** X27: a retry that succeeds does not clear the error of the failed
    attempt.  When the upload of an entry fails in one run and is accepted
    in the next, the entry ends uploaded and still carries the error text
    of the first run. *)
Theorem retry_keeps_old_error (u : Auth.User) (now1 now2 : nat → Z)
    (answer1 answer2 : nat → Outcome (option JsError)) (p : Page)
    (i : nat) (f : UploadedFile) (e : JsError) :
  files p !! i = Some f → uploaded f = false →
  failure (answer1 i) = Some e → failure (answer2 i) = None →
  let p1 := fst (uploadFiles (Some u) now1 answer1 p) in
  let p2 := fst (uploadFiles (Some u) now2 answer2 p1) in
  files p1 !! i
  = Some {| file := file f; preview := preview f; uploading := false;
            uploaded := false;
            error := Some (AddExpense.message_or e "Upload failed") |}
  ∧ files p2 !! i
    = Some {| file := file f; preview := preview f; uploading := false;
              uploaded := true;
              error := Some (AddExpense.message_or e "Upload failed") |}.
Proof.
  intros Hi Hup H1 H2 p1 p2.
  pose proof (uploadFiles_files u now1 answer1 p) as Hf1. fold p1 in Hf1.
  pose proof (uploadFiles_files u now2 answer2 p1) as Hf2. fold p2 in Hf2.
  assert (Hp1 : files p1 !! i
                = Some {| file := file f; preview := preview f; uploading := false;
                          uploaded := false;
                          error := Some (AddExpense.message_or e "Upload failed") |}).
  { rewrite Hf1, list_lookup_imap, Hi. cbn. unfold settle.
    rewrite Hup, H1. unfold mark_failed, start_upload. cbn. by rewrite Hup. }
  split; [exact Hp1|].
  rewrite Hf2, list_lookup_imap, Hp1. cbn. unfold settle. cbn. by rewrite H2.
Qed.

(** X28: removing what was just dropped.  After one file is dropped on
    the page, removing the last entry gives back the list as it was and
    revokes the preview URL if one was created for the file (an image);
    the page stays mounted.  A call of [removeFile] with an index past
    the end returns as well, but its update throws when React runs it:
    nothing is revoked and the page is lost. *)
Theorem drop_then_remove (blob : nat → string) (f : File) (p : Page) :
  let p1 := onDrop blob [f] p in
  removeFile (length (files p)) p
  = (Crashed (Error "TypeError"), [], Returned tt)
  ∧ length (files p1) = S (length (files p))
  ∧ removeFile (length (files p)) p1
    = (Live {| files := files p; page_uploading := page_uploading p;
               urls_created :=
                 (urls_created p + if is_image f then 1 else 0)%nat |},
       (if is_image f && negb (empty_string (blob (urls_created p)))
        then [Revoke (blob (urls_created p))] else []),
       Returned tt).
Proof.
  intros p1. subst p1. unfold removeFile, onDrop. cbn [new_entries files].
  rewrite (lookup_ge_None_2 (files p) (length (files p))) by lia.
  split; [reflexivity|].
  unfold is_image.
  destruct (String.prefix "image/" (file_type f)); cbn [fst snd];
    rewrite list_lookup_middle by reflexivity;
    (split; [rewrite length_app; cbn; lia|]); cbn [fst snd files];
    rewrite (delete_middle (files p) []), app_nil_r;
    cbn [page_uploading urls_created andb].
  - unfold revocations, preview_url. cbn [preview].
    replace (urls_created p + 1)%nat with (S (urls_created p)) by lia.
    by destruct (empty_string (blob (urls_created p))).
  - by rewrite Nat.add_0_r.
Qed.

Lemma new_entries_revoked (blob : nat → string) (accepted : list File) (n : nat) :
  (∀ k, blob k ≠ "") →
  concat (revocations <$> fst (new_entries blob n accepted))
  = (λ k, Revoke (blob k)) <$> seq n (length (List.filter is_image accepted))
  ∧ snd (new_entries blob n accepted)
    = (n + length (List.filter is_image accepted))%nat.
Proof.
  intros Hb. revert n. induction accepted as [|f l IH]; intros n.
  { cbn. split; [reflexivity|lia]. }
  cbn [new_entries List.filter].
  change (String.prefix "image/" (file_type f)) with (is_image f).
  destruct (is_image f).
  - destruct (IH (S n)) as [IH1 IH2]. cbn [fst snd length seq].
    rewrite !fmap_cons, concat_cons, IH1, IH2.
    split; [|lia]. unfold revocations, preview_url. cbn [preview].
    specialize (Hb n). destruct (blob n); [done|reflexivity].
  - destruct (IH n) as [IH1 IH2]. cbn [fst snd].
    rewrite fmap_cons, concat_cons, IH1, IH2. by split.
Qed.

(** X29: no preview URL is left behind by [clearFiles].  On a page without
    files, after any files are dropped, clearing the list revokes exactly
    the URLs that the drop created, one per image and in order, and
    leaves the list empty (object URLs are never the empty string). *)
Theorem drop_then_clear (blob : nat → string) (accepted : list File) (p : Page) :
  (∀ k, blob k ≠ "") → files p = [] →
  let p1 := onDrop blob accepted p in
  snd (clearFiles p1)
  = (λ k, Revoke (blob k))
      <$> seq (urls_created p) (length (List.filter is_image accepted))
  ∧ urls_created p1
    = (urls_created p + length (List.filter is_image accepted))%nat
  ∧ length (files p1) = length accepted
  ∧ files (fst (clearFiles p1)) = [].
Proof.
  intros Hb Hp p1. subst p1. unfold clearFiles, onDrop. cbn [fst snd files urls_created].
  rewrite Hp. cbn [app].
  destruct (new_entries_revoked blob accepted (urls_created p) Hb) as [H1 H2].
  repeat split; try assumption.
  clear. generalize (urls_created p). induction accepted as [|f l IH]; intros n;
    [reflexivity|].
  cbn [new_entries]. destruct (String.prefix "image/" (file_type f)); cbn;
    by rewrite IH.
Qed.

Lemma string_app_nil_r (s : string) : s +:+ "" = s.
Proof.
  induction s as [|c s IH]; [reflexivity|].
  change (String c (s +:+ "") = String c s). by rewrite IH.
Qed.

Lemma string_app_assoc (a b c : string) : (a +:+ b) +:+ c = a +:+ (b +:+ c).
Proof.
  induction a as [|x a IH]; [reflexivity|].
  change (String x ((a +:+ b) +:+ c) = String x (a +:+ (b +:+ c))).
  by rewrite IH.
Qed.

Lemma last_segment_no_dot (acc s : string) :
  has_dot s = false → last_segment acc s = acc +:+ s.
Proof.
  revert acc. induction s as [|c s IH]; intros acc Hs.
  - cbn. by rewrite string_app_nil_r.
  - cbn in Hs. apply orb_false_elim in Hs as [Hc Hs].
    cbn [last_segment]. rewrite Hc, (IH _ Hs), string_app_assoc. reflexivity.
Qed.

Lemma last_segment_dot (acc s : string) :
  has_dot s = true →
  has_dot (last_segment acc s) = false
  ∧ ∃ stem, s = stem +:+ "." +:+ last_segment acc s.
Proof.
  revert acc. induction s as [|c s IH]; intros acc Hs; [discriminate|].
  cbn [has_dot] in Hs. cbn [last_segment].
  destruct (Ascii.eqb c (Ascii.ascii_of_nat 46)) eqn:Hc.
  - apply Ascii.eqb_eq in Hc. subst c.
    destruct (has_dot s) eqn:Hd.
    + destruct (IH "" eq_refl) as (Hn & stem & Hstem).
      split; [exact Hn|]. exists (String (Ascii.ascii_of_nat 46) stem).
      change (String (Ascii.ascii_of_nat 46) s
              = String (Ascii.ascii_of_nat 46)
                  (stem +:+ "." +:+ last_segment "" s)).
      by rewrite <- Hstem.
    + rewrite (last_segment_no_dot "" s Hd).
      split; [exact Hd|]. by exists "".
  - cbn [orb] in Hs.
    destruct (IH (acc +:+ String c "") Hs) as (Hn & stem & Hstem).
    split; [exact Hn|]. exists (String c stem).
    change (String c s
            = String c (stem +:+ "." +:+ last_segment (acc +:+ String c "") s)).
    by rewrite <- Hstem.
Qed.

(** X30: the extension used in the storage path is the part of the file
    name after its last dot: it never contains a dot, a name with a dot is
    some stem, a dot and the extension, and a name without any dot is
    taken whole as its own extension. *)
Theorem fileExt_is_last_segment (name : string) :
  has_dot (fileExt name) = false
  ∧ (if has_dot name
     then ∃ stem, name = stem +:+ "." +:+ fileExt name
     else fileExt name = name).
Proof.
  unfold fileExt. destruct (has_dot name) eqn:Hd.
  - destruct (last_segment_dot "" name Hd) as [Hn Hs]. by split.
  - rewrite (last_segment_no_dot "" name Hd). by split.
Qed.

End BillsMore.

Lemma retry_keeps_old_error_witness :
  let f := {| Bills.file := BillsSpec.invoice; Bills.preview := None;
              Bills.uploading := false; Bills.uploaded := false;
              Bills.error := None |} in
  let p1 := fst (Bills.uploadFiles (Some Inputs.remote_user)
                   (λ i, 1700000000000) BillsSpec.refused BillsSpec.one_pending) in
  let p2 := fst (Bills.uploadFiles (Some Inputs.remote_user)
                   (λ i, 1700000005000) BillsSpec.accepted p1) in
  Bills.files p1 !! 0%nat
  = Some {| Bills.file := Bills.file f; Bills.preview := Bills.preview f;
            Bills.uploading := false; Bills.uploaded := false;
            Bills.error :=
              Some (AddExpense.message_or (Error "Payload too large")
                      "Upload failed") |}
  ∧ Bills.files p2 !! 0%nat
    = Some {| Bills.file := Bills.file f; Bills.preview := Bills.preview f;
              Bills.uploading := false; Bills.uploaded := true;
              Bills.error :=
                Some (AddExpense.message_or (Error "Payload too large")
                        "Upload failed") |}.
Proof.
  apply (retry_keeps_old_error Inputs.remote_user (λ i, 1700000000000)
           (λ i, 1700000005000) BillsSpec.refused BillsSpec.accepted
           BillsSpec.one_pending 0
           {| Bills.file := BillsSpec.invoice; Bills.preview := None;
              Bills.uploading := false; Bills.uploaded := false;
              Bills.error := None |} (Error "Payload too large"));
    reflexivity.
Defined.

Lemma drop_then_clear_witness :
  let accepted := [BillsSpec.receipt_photo; BillsSpec.invoice;
                   BillsSpec.receipt_photo] in
  let p1 := Bills.onDrop BillsSpec.blob_letters accepted Bills.empty_page in
  snd (Bills.clearFiles p1)
  = (λ k, Bills.Revoke (BillsSpec.blob_letters k))
      <$> seq (Bills.urls_created Bills.empty_page)
            (length (List.filter BillsSpec.is_image accepted))
  ∧ Bills.urls_created p1
    = (Bills.urls_created Bills.empty_page
       + length (List.filter BillsSpec.is_image accepted))%nat
  ∧ length (Bills.files p1) = length accepted
  ∧ Bills.files (fst (Bills.clearFiles p1)) = [].
Proof.
  apply (drop_then_clear BillsSpec.blob_letters
           [BillsSpec.receipt_photo; BillsSpec.invoice; BillsSpec.receipt_photo]
           Bills.empty_page).
  - intros k. discriminate.
  - reflexivity.
Defined.
